(** * Users module and JWT strategy of the rental backend

    A shallow embedding of
    - [src/modules/users/entities/user.entity.ts]   (the [User] entity),
    - [src/modules/users/dto/create-user.dto.ts]    ([CreateUserDto]),
    - [src/modules/users/dto/update-user.dto.ts]    ([UpdateUserDto]),
    - [src/modules/users/users.service.ts]          ([UsersService]),
    - [src/modules/auth/strategies/jwt.strategy.ts] ([JwtStrategy]),
    followed by the properties of the account core that hold of it.

    JavaScript objects whose properties may be missing are records of
    options ([None] is [undefined]); the [users] table is a finite map
    from primary key to row; [async] methods are computations in a
    state-and-exception monad over the table. *)

From Stdlib Require Import ZArith String Ascii List Bool Lia.
From stdpp Require Import base option gmap strings list fin_maps fin_sets infinite.

Local Open Scope string_scope.
Local Open Scope Z_scope.

(* ===================================================================== *)
(** ** JavaScript values used by the module *)
(* ===================================================================== *)

(** Truthiness of a string: every string but the empty one. *)
Definition truthy (s : string) : bool := negb (String.eqb s "").

(** Truthiness of an optional string property: [undefined] is falsy. *)
Definition truthy_opt (o : option string) : bool :=
  match o with
  | Some s => truthy s
  | None => false
  end.

(** [a !== b] on optional strings (strict inequality). *)
Definition strict_neq (a b : option string) : bool :=
  negb (bool_decide (a = b)).

(** A property interpolated in a template literal. *)
Definition interpolate (o : option string) : string :=
  match o with
  | Some s => s
  | None => "undefined"
  end.

(** [lo <= c <= hi] on character codes. *)
Definition between (lo hi c : ascii) : bool :=
  (N_of_ascii lo <=? N_of_ascii c)%N && (N_of_ascii c <=? N_of_ascii hi)%N.

(* ===================================================================== *)
(** ** The [uuid] column type *)
(* ===================================================================== *)

(** The [id] column is a PostgreSQL [uuid]
    ([@PrimaryGeneratedColumn('uuid')], [type: 'postgres']).  The service
    hands the database the text it was called with, and the database
    reads it with the type's input routine: an optional opening brace,
    sixteen bytes of two hexadecimal digits each, a hyphen allowed after
    every second byte but the last, the closing brace if one was opened,
    and nothing more.  A text it cannot read is refused. *)
Definition isxdigit (c : ascii) : bool :=
  between "0" "9" c || between "a" "f" c || between "A" "F" c.

Definition hex_lower (c : ascii) : ascii :=
  if between "A" "F" c then ascii_of_N (N_of_ascii c + 32) else c.

(** [n] more bytes, the next one being byte [i]: the digits read, in
    lower case, and the text left over. *)
Fixpoint uuid_bytes (n i : nat) (src : string) : option (list ascii * string) :=
  match n with
  | O => Some ([], src)
  | S n' =>
      match src with
      | String a (String b rest) =>
          if isxdigit a && isxdigit b then
            let rest' :=
              match rest with
              | String "-" after =>
                  if Nat.odd i && (i <? 15)%nat then after else rest
              | _ => rest
              end in
            match uuid_bytes n' (S i) rest' with
            | Some (digits, tail) =>
                Some (hex_lower a :: hex_lower b :: digits, tail)
            | None => None
            end
          else None
      | _ => None
      end
  end.

(** The text the database prints for a uuid: 8-4-4-4-12 digits. *)
Definition uuid_out (digits : list ascii) : string :=
  string_of_list_ascii
    (take 8 digits ++ "-"%char :: take 4 (drop 8 digits) ++ "-"%char
     :: take 4 (drop 12 digits) ++ "-"%char :: take 4 (drop 16 digits)
     ++ "-"%char :: drop 20 digits).

(** The uuid a text spells, in the database's own spelling; [None] for
    a text that is not a uuid. *)
Definition uuid_in (source : string) : option string :=
  let '(braces, src) :=
    match source with
    | String "{" after => (true, after)
    | _ => (false, source)
    end in
  match uuid_bytes 16 0 src with
  | Some (digits, tail) =>
      let closed :=
        if braces : bool then
          match tail with
          | String "}" after => Some after
          | _ => None
          end
        else Some tail in
      match closed with
      | Some EmptyString => Some (uuid_out digits)
      | _ => None
      end
  | None => None
  end.

(* ===================================================================== *)
(** ** The entity and its table *)
(* ===================================================================== *)

(** The [role] column: [enum: ['customer', 'driver', 'manager', 'admin']]. *)
Inductive Role : Type := customer | driver | manager | admin.

#[global] Instance Role_eq_dec : EqDecision Role.
Proof. solve_decision. Defined.

(** A row of the [users] table, without its primary key: the row's key in
    the table is the [id] column.  [phoneNumber] is the one nullable
    column. *)
Module Row.
Record t : Type := mk {
  fullName : string;
  email : string;
  password : string;
  phoneNumber : option string;
  role : Role;
  isActive : bool;
  createdAt : Z;
  updatedAt : Z
}.
End Row.

#[global] Instance Row_eq_dec : EqDecision Row.t.
Proof. solve_decision. Defined.

(** A [User] object in memory.  A query leaves out the properties it
    does not select, and [repository.create] leaves out what the DTO
    does not carry. *)
Module User.
Record t : Type := mk {
  id : option string;
  fullName : option string;
  email : option string;
  password : option string;
  phoneNumber : option string;
  role : option Role;
  isActive : option bool;
  createdAt : option Z;
  updatedAt : option Z
}.
End User.

(** [CreateUserDto]: three required properties, two optional ones. *)
Module CreateUserDto.
Record t : Type := mk {
  fullName : string;
  email : string;
  password : string;
  phoneNumber : option string;
  role : option Role
}.
End CreateUserDto.

(** [UpdateUserDto extends PartialType(CreateUserDto)] plus [isActive?]. *)
Module UpdateUserDto.
Record t : Type := mk {
  fullName : option string;
  email : option string;
  password : option string;
  phoneNumber : option string;
  role : option Role;
  isActive : option bool
}.
End UpdateUserDto.

(** The [users] table, keyed by the [uuid] primary key. *)
Abbreviation Table := (gmap string Row.t).

(* ===================================================================== *)
(** ** Exceptions and the monad of [async] methods *)
(* ===================================================================== *)

(** What a method of the service can throw: the two HTTP exceptions it
    raises itself, and the driver's error when the database refuses a
    statement (a violated [unique] or [NOT NULL] constraint). *)
Inductive Exception : Type :=
  | ConflictException (message : string)
  | NotFoundException (message : string)
  | QueryFailedError.

Inductive Result (A : Type) : Type :=
  | Ok (a : A)
  | Throw (e : Exception).
Arguments Ok {A} a.
Arguments Throw {A} e.

(** A computation reads and writes the table and returns or throws. *)
Definition M (A : Type) : Type := Table -> Result A * Table.

Definition ret {A} (a : A) : M A := fun t => (Ok a, t).
Definition throw {A} (e : Exception) : M A := fun t => (Throw e, t).
Definition bind {A B} (m : M A) (k : A -> M B) : M B :=
  fun t =>
    match m t with
    | (Ok a, t') => k a t'
    | (Throw e, t') => (Throw e, t')
    end.

Declare Scope async_scope.
Delimit Scope async_scope with async.
Notation "'await' x <- m ;; k" := (bind m (fun x => k))
  (at level 10, x name, m at level 99, k at level 200) : async_scope.
Notation "'await_' m ;; k" := (bind m (fun _ => k))
  (at level 10, m at level 99, k at level 200) : async_scope.
Local Open Scope async_scope.

(** The value the caller receives, and the table left behind. *)
Definition outcome {A} (x : Result A * Table) : Result A := fst x.
Definition store_after {A} (x : Result A * Table) : Table := snd x.

(* ===================================================================== *)
(** ** What the environment supplies *)
(* ===================================================================== *)

(** [bcrypt.hash(data, salt)]: the digest of [data] under [salt]. *)
Class Bcrypt : Type := { bcrypt_hash : string -> string -> string }.

(** The values a call draws from outside the program: the database
    clock that fills [@CreateDateColumn] and [@UpdateDateColumn], and the
    salt [bcrypt.genSalt(10)] returns. *)
Record Runtime : Type := {
  now : Z;
  genSalt : string
}.

(* ===================================================================== *)
(** ** [Repository<User>] over the [users] table *)
(* ===================================================================== *)

(** The service reaches the database through TypeORM's repository.  The
    calls it makes are modelled on the table with the entity's column
    options as declared in [user.entity.ts]:
    - a query hydrates the selected columns only, and [password] is
      declared [select: false];
    - [save] inserts when the entity's [id] is not a key of the table
      and updates otherwise; it mutates and returns the entity object it
      was given, with the generated values filled in;
    - [@BeforeInsert] hooks run on the insert path only;
    - a property the entity does not have is not written;
    - [email] is [unique: true]; [fullName], [email] and [password] are
      not nullable; a statement that breaks a constraint is refused and
      changes nothing;
    - [id] is a [uuid]: a query by a text the database cannot read as a
      uuid is refused, and a uuid is found under any of its spellings. *)
Section Repository.
Context `{Bcrypt}.

(** [@BeforeInsert() hashPasswordBeforeInsert]: the entity's only
    lifecycle hook. *)
Definition hashPasswordBeforeInsert (salt : string) (this : User.t) : User.t :=
  match User.password this with
  | Some p =>
      if truthy p then
        {| User.id := User.id this;
           User.fullName := User.fullName this;
           User.email := User.email this;
           User.password := Some (bcrypt_hash p salt);
           User.phoneNumber := User.phoneNumber this;
           User.role := User.role this;
           User.isActive := User.isActive this;
           User.createdAt := User.createdAt this;
           User.updatedAt := User.updatedAt this |}
      else this
  | None => this
  end.

(** A query without a [select] option hydrates every column but those
    declared [select: false], that is, every column but [password]. *)
Definition select_default (i : string) (r : Row.t) : User.t :=
  {| User.id := Some i;
     User.fullName := Some (Row.fullName r);
     User.email := Some (Row.email r);
     User.password := None;
     User.phoneNumber := Row.phoneNumber r;
     User.role := Some (Row.role r);
     User.isActive := Some (Row.isActive r);
     User.createdAt := Some (Row.createdAt r);
     User.updatedAt := Some (Row.updatedAt r) |}.

(** [select: ['id', 'email', 'password', 'role', 'fullName', 'isActive']]. *)
Definition select_with_password (i : string) (r : Row.t) : User.t :=
  {| User.id := Some i;
     User.fullName := Some (Row.fullName r);
     User.email := Some (Row.email r);
     User.password := Some (Row.password r);
     User.phoneNumber := None;
     User.role := Some (Row.role r);
     User.isActive := Some (Row.isActive r);
     User.createdAt := None;
     User.updatedAt := None |}.

(** [where: { email }] on a keyed row. *)
Definition where_email (e : string) (kv : string * Row.t) : bool :=
  String.eqb (Row.email kv.2) e.

(** The key of the table a text names in [where: { id }].  The keys of
    the table are the uuids in use, each under the database's spelling of
    it, so a key names itself (the uuids the database generates are kept
    abstract, see [uuid_generate]); any other text names the uuid it
    spells, and names nothing when it is not a uuid. *)
Definition uuid_key (t : Table) (i : string) : option string :=
  match t !! i with
  | Some _ => Some i
  | None => uuid_in i
  end.

(** [findOne({ where: { id } })]: the statement is refused when the
    text is not a uuid; otherwise the row under the uuid is hydrated,
    its [id] in the database's spelling. *)
Definition findOne_where_id (i : string) : M (option User.t) :=
  fun t =>
    match uuid_key t i with
    | Some k => (Ok (select_default k <$> t !! k), t)
    | None => (Throw QueryFailedError, t)
    end.

(** [findOne({ where: { email } })]. *)
Definition findOne_where_email (e : string) : M (option User.t) :=
  fun t =>
    (Ok ((fun kv => select_default kv.1 kv.2)
           <$> List.find (where_email e) (map_to_list t)), t).

(** [findOne({ where: { email }, select: [...] })]. *)
Definition findOne_where_email_select (e : string) : M (option User.t) :=
  fun t =>
    (Ok ((fun kv => select_with_password kv.1 kv.2)
           <$> List.find (where_email e) (map_to_list t)), t).

(** [find()]. *)
Definition find_all : M (list User.t) :=
  fun t => (Ok ((fun kv => select_default kv.1 kv.2) <$> map_to_list t), t).

(** [repository.create(dto)]: a new entity carrying the DTO's
    properties; nothing is written. *)
Definition repository_create (dto : CreateUserDto.t) : User.t :=
  {| User.id := None;
     User.fullName := Some (CreateUserDto.fullName dto);
     User.email := Some (CreateUserDto.email dto);
     User.password := Some (CreateUserDto.password dto);
     User.phoneNumber := CreateUserDto.phoneNumber dto;
     User.role := CreateUserDto.role dto;
     User.isActive := None;
     User.createdAt := None;
     User.updatedAt := None |}.

(** [@Column({ unique: true }) email]: would row [i] holding [e] share
    its email with another row? *)
Definition violates_unique_email (t : Table) (i e : string) : bool :=
  existsb (fun kv => negb (String.eqb kv.1 i) && where_email e kv)
          (map_to_list t).

(** [save] of an entity that is not in the table: the hook runs, the
    row is inserted with the column defaults ([role] is ['customer'],
    [isActive] is [true]) and both timestamps, and the generated values
    are written back into the same entity object, which is returned. *)
Definition insert_row (rt : Runtime) (i : string) (this : User.t) : M User.t :=
  fun t =>
    let this := hashPasswordBeforeInsert (genSalt rt) this in
    match User.fullName this, User.email this, User.password this with
    | Some n, Some e, Some p =>
        if violates_unique_email t i e then (Throw QueryFailedError, t)
        else
          let r := {| Row.fullName := n;
                      Row.email := e;
                      Row.password := p;
                      Row.phoneNumber := User.phoneNumber this;
                      Row.role := default customer (User.role this);
                      Row.isActive := default true (User.isActive this);
                      Row.createdAt := now rt;
                      Row.updatedAt := now rt |} in
          (Ok {| User.id := Some i;
                 User.fullName := User.fullName this;
                 User.email := User.email this;
                 User.password := User.password this;
                 User.phoneNumber := User.phoneNumber this;
                 User.role := Some (Row.role r);
                 User.isActive := Some (Row.isActive r);
                 User.createdAt := Some (now rt);
                 User.updatedAt := Some (now rt) |},
           <[i := r]> t)
    | _, _, _ => (Throw QueryFailedError, t)
    end.

(** The row an entity describes, relative to the stored one: a column
    takes the entity's value where the entity has the property. *)
Definition merge_columns (this : User.t) (r : Row.t) : Row.t :=
  {| Row.fullName := default (Row.fullName r) (User.fullName this);
     Row.email := default (Row.email r) (User.email this);
     Row.password := default (Row.password r) (User.password this);
     Row.phoneNumber :=
       match User.phoneNumber this with
       | Some p => Some p
       | None => Row.phoneNumber r
       end;
     Row.role := default (Row.role r) (User.role this);
     Row.isActive := default (Row.isActive r) (User.isActive this);
     Row.createdAt := Row.createdAt r;
     Row.updatedAt := Row.updatedAt r |}.

Definition touch (rt : Runtime) (r : Row.t) : Row.t :=
  {| Row.fullName := Row.fullName r;
     Row.email := Row.email r;
     Row.password := Row.password r;
     Row.phoneNumber := Row.phoneNumber r;
     Row.role := Row.role r;
     Row.isActive := Row.isActive r;
     Row.createdAt := Row.createdAt r;
     Row.updatedAt := now rt |}.

Definition touch_entity (rt : Runtime) (this : User.t) : User.t :=
  {| User.id := User.id this;
     User.fullName := User.fullName this;
     User.email := User.email this;
     User.password := User.password this;
     User.phoneNumber := User.phoneNumber this;
     User.role := User.role this;
     User.isActive := User.isActive this;
     User.createdAt := User.createdAt this;
     User.updatedAt := Some (now rt) |}.

(** The columns of an entity are compared with the row as a query loads
    it, that is, without [password]: an entity differs from its row when
    a column it carries has another value, and whenever it carries a
    [password]. *)
Definition differs (this : User.t) (r : Row.t) : bool :=
  negb (bool_decide (merge_columns this r = r))
  || match User.password this with
     | Some _ => true
     | None => false
     end.

(** [save] of an entity whose row [r] is in the table: no hook is
    registered for updates; when the entity differs from the row, the
    columns it carries are written and [updatedAt] is refreshed, unless
    the unique index on [email] refuses the new email; nothing is
    written when the entity does not differ. *)
Definition update_row (rt : Runtime) (i : string) (r : Row.t) (this : User.t)
  : M User.t :=
  fun t =>
    let r' := merge_columns this r in
    if negb (differs this r) then (Ok this, t)
    else if negb (String.eqb (Row.email r') (Row.email r))
            && violates_unique_email t i (Row.email r')
    then (Throw QueryFailedError, t)
    else (Ok (touch_entity rt this), <[i := touch rt r']> t).

(** [@PrimaryGeneratedColumn('uuid')]: an identifier no row uses.  The
    uuid the database generates is kept abstract: only that it is new
    is fixed, not how it is spelled. *)
Definition uuid_generate (t : Table) : string := fresh (dom t).

(** [repository.save(entity)]. *)
Definition save (rt : Runtime) (this : User.t) : M User.t :=
  fun t =>
    match User.id this with
    | Some i =>
        match t !! i with
        | Some r => update_row rt i r this t
        | None => insert_row rt i this t
        end
    | None => insert_row rt (uuid_generate t) this t
    end.

End Repository.

(* ===================================================================== *)
(** ** [UsersService] *)
(* ===================================================================== *)

(** The object [remove] returns. *)
Record Message : Type := { message : string }.

Section UsersService.
Context `{Bcrypt}.

(** [async create(createUserDto)]. *)
Definition create (rt : Runtime) (createUserDto : CreateUserDto.t) : M User.t :=
  await existingUser <- findOne_where_email (CreateUserDto.email createUserDto) ;;
  match existingUser with
  | Some _ => throw (ConflictException "Email already exists")
  | None =>
      let user := repository_create createUserDto in
      save rt user
  end.

(** [async findAll()]. *)
Definition findAll : M (list User.t) := find_all.

(** [async findOne(id)]. *)
Definition findOne (id : string) : M User.t :=
  await user <- findOne_where_id id ;;
  match user with
  | None => throw (NotFoundException ("User with ID " +:+ id +:+ " not found"))
  | Some user => ret user
  end.

(** [async findByEmail(email)]. *)
Definition findByEmail (email : string) : M (option User.t) :=
  findOne_where_email_select email.

(** [Object.assign(user, updateUserDto)]: every property the DTO has
    is copied onto the entity. *)
Definition Object_assign (user : User.t) (dto : UpdateUserDto.t) : User.t :=
  let over {A} (new old : option A) : option A :=
    match new with
    | Some v => Some v
    | None => old
    end in
  {| User.id := User.id user;
     User.fullName := over (UpdateUserDto.fullName dto) (User.fullName user);
     User.email := over (UpdateUserDto.email dto) (User.email user);
     User.password := over (UpdateUserDto.password dto) (User.password user);
     User.phoneNumber := over (UpdateUserDto.phoneNumber dto) (User.phoneNumber user);
     User.role := over (UpdateUserDto.role dto) (User.role user);
     User.isActive := over (UpdateUserDto.isActive dto) (User.isActive user);
     User.createdAt := User.createdAt user;
     User.updatedAt := User.updatedAt user |}.

(** [async update(id, updateUserDto)]. *)
Definition update (rt : Runtime) (id : string) (updateUserDto : UpdateUserDto.t)
  : M User.t :=
  await user <- findOne id ;;
  await_ (if truthy_opt (UpdateUserDto.email updateUserDto)
             && strict_neq (UpdateUserDto.email updateUserDto) (User.email user)
          then
            await existingUser <-
              findOne_where_email (default "" (UpdateUserDto.email updateUserDto)) ;;
            match existingUser with
            | Some _ => throw (ConflictException "Email already exists")
            | None => ret tt
            end
          else ret tt) ;;
  let user := Object_assign user updateUserDto in
  save rt user.

(** [user.isActive = false]. *)
Definition set_isActive (user : User.t) (b : bool) : User.t :=
  {| User.id := User.id user;
     User.fullName := User.fullName user;
     User.email := User.email user;
     User.password := User.password user;
     User.phoneNumber := User.phoneNumber user;
     User.role := User.role user;
     User.isActive := Some b;
     User.createdAt := User.createdAt user;
     User.updatedAt := User.updatedAt user |}.

(** [async remove(id)]. *)
Definition remove (rt : Runtime) (id : string) : M Message :=
  await user <- findOne id ;;
  let user := set_isActive user false in
  await_ save rt user ;;
  ret {| message := "User " +:+ interpolate (User.email user)
                      +:+ " has been deactivated" |}.

(** [async isUserActive(id)]. *)
Definition isUserActive (id : string) : M (option bool) :=
  await user <- findOne id ;;
  ret (User.isActive user).

End UsersService.

(* ===================================================================== *)
(** ** [CreateUserDto.password]: the class-validator decorators *)
(* ===================================================================== *)

(** The regular expressions the DTO needs: sequences of one-character
    sets, starred one-character sets and lookaheads over such sequences,
    matched from the start of the input (the pattern opens with [^]). *)
Inductive Item : Type :=
  | One (set : ascii -> bool)
  | Many (set : ascii -> bool).

Inductive Node : Type :=
  | Consume (i : Item)
  | Lookahead (body : list Item).

(** Does some prefix of [s] match the items?  [Many] backtracks over
    every number of repetitions. *)
Fixpoint match_items (items : list Item) (s : string) : bool :=
  match items with
  | [] => true
  | One set :: rest =>
      match s with
      | String c s' => set c && match_items rest s'
      | EmptyString => false
      end
  | Many set :: rest =>
      (fix many (s : string) : bool :=
         match_items rest s
         || match s with
            | String c s' => set c && many s'
            | EmptyString => false
            end) s
  end.

Fixpoint match_nodes (nodes : list Node) (s : string) : bool :=
  match nodes with
  | [] => true
  | Lookahead body :: rest => match_items body s && match_nodes rest s
  | Consume (One set) :: rest =>
      match s with
      | String c s' => set c && match_nodes rest s'
      | EmptyString => false
      end
  | Consume (Many set) :: rest =>
      (fix many (s : string) : bool :=
         match_nodes rest s
         || match s with
            | String c s' => set c && many s'
            | EmptyString => false
            end) s
  end.

(** [regexp.test(s)] for a pattern anchored with [^]. *)
Definition test (pattern : list Node) (s : string) : bool := match_nodes pattern s.

Definition one_of (chars : string) (c : ascii) : bool :=
  existsb (Ascii.eqb c) (list_ascii_of_string chars).

(** [[a-z]], [[A-Z]], [\d], [[@$!%*?&]] and [.] (any character but a
    line terminator). *)
Definition lower : ascii -> bool := between "a" "z".
Definition upper : ascii -> bool := between "A" "Z".
Definition digit : ascii -> bool := between "0" "9".
Definition special : ascii -> bool := one_of "@$!%*?&".
Definition dot (c : ascii) : bool :=
  negb (Ascii.eqb c "010" || Ascii.eqb c "013").

(** [[A-Za-z\d@$!%*?&]]. *)
Definition allowed (c : ascii) : bool :=
  upper c || lower c || digit c || special c.

(** [/^(?=.*[a-z])(?=.*[A-Z])(?=.*\d)(?=.*[@$!%*?&])[A-Za-z\d@$!%*?&]/]. *)
Definition password_pattern : list Node :=
  [ Lookahead [Many dot; One lower];
    Lookahead [Many dot; One upper];
    Lookahead [Many dot; One digit];
    Lookahead [Many dot; One special];
    Consume (One allowed) ].

(** [@IsNotEmpty()], [@MinLength(n)] and [@Matches(pattern)] on a string. *)
Definition IsNotEmpty (value : string) : bool := negb (String.eqb value "").
Definition MinLength (n : nat) (value : string) : bool :=
  (n <=? String.length value)%nat.
Definition Matches (pattern : list Node) (value : string) : bool :=
  test pattern value.

(** The messages [ValidationPipe] reports for the password of a
    creation request, one per violated decorator; the request reaches the
    controller when there is none. *)
Definition validate_password (password : string) : list string :=
  (if IsNotEmpty password then [] else ["password should not be empty"])
  ++ (if MinLength 8 password then []
      else ["Password must be at least 8 characters"])
  ++ (if Matches password_pattern password then []
      else ["Password must contain uppercase, lowercase, number and special character"]).

Definition password_accepted (password : string) : bool :=
  bool_decide (validate_password password = []).

(** The rule as the documentation words it: at least 8 characters, and
    at least one lowercase letter, one uppercase letter, one digit and
    one of the listed symbols. *)
Definition documented_password_rule (password : string) : bool :=
  let chars := list_ascii_of_string password in
  (8 <=? String.length password)%nat
  && existsb lower chars && existsb upper chars
  && existsb digit chars && existsb special chars.

(* ===================================================================== *)
(** ** [JwtStrategy] *)
(* ===================================================================== *)

(** The decoded payload: the three fields of the [JwtPayload] interface,
    the registered time claims the JWT library reads ([iat], [exp],
    [nbf]), and whatever else the issuer embedded. *)
Module JwtPayload.
Record t : Type := mk {
  sub : string;
  email : string;
  role : string;
  iat : option Z;
  exp : option Z;
  nbf : option Z;
  others : list (string * string)
}.
End JwtPayload.

(** What [validate] returns, which becomes [req.user]. *)
Module ReqUser.
Record t : Type := mk {
  id : string;
  email : string;
  role : string
}.
End ReqUser.

(** The options [super({...})] passes to passport-jwt. *)
Record StrategyOptions : Type := {
  ignoreExpiration : bool;
  secretOrKey : string
}.

(** The two operations of the JWT library the strategy rests on:
    parsing a compact token into its payload (nothing for a malformed
    one) and checking its signature under a secret. *)
Class JsonWebToken : Type := {
  jwt_decode : string -> option JwtPayload.t;
  jwt_signature_valid : string -> string -> bool
}.

Section JwtStrategy.
Context `{JsonWebToken}.

(** The time claims as the library checks them with the options the
    strategy passes on: a token is not yet active while the clock (in
    seconds) is before its [nbf], and it has expired, unless expiry is
    ignored, once the clock has reached its [exp]. *)
Definition not_yet_active (clock : Z) (payload : JwtPayload.t) : bool :=
  match JwtPayload.nbf payload with
  | Some n => clock <? n
  | None => false
  end.

Definition expired (opts : StrategyOptions) (clock : Z) (payload : JwtPayload.t)
  : bool :=
  match JwtPayload.exp payload with
  | Some e => negb (ignoreExpiration opts) && (e <=? clock)
  | None => false
  end.

(** [jwt.verify] as passport-jwt calls it.  The library is no part of
    the repository: this is its verification order, with the parsing and
    the signature check left to the two operations above.  Structure
    first, then the signature, then [nbf], then [exp]. *)
Definition jwt_verify (opts : StrategyOptions) (clock : Z) (token : string)
  : option JwtPayload.t :=
  match jwt_decode token with
  | None => None
  | Some payload =>
      if negb (jwt_signature_valid (secretOrKey opts) token) then None
      else if not_yet_active clock payload then None
      else if expired opts clock payload then None
      else Some payload
  end.

(** [constructor(configService)]: [getOrThrow] fails when the variable
    is not set, and the base class refuses a secret that is falsy; the
    construction fails in both cases. *)
Definition JwtStrategy_constructor (configService : string -> option string)
  : option StrategyOptions :=
  match configService "JWT_SECRET" with
  | Some secret =>
      if truthy secret
      then Some {| ignoreExpiration := false; secretOrKey := secret |}
      else None
  | None => None
  end.

(** [validate(payload)]. *)
Definition validate (payload : JwtPayload.t) : ReqUser.t :=
  {| ReqUser.id := JwtPayload.sub payload;
     ReqUser.email := JwtPayload.email payload;
     ReqUser.role := JwtPayload.role payload |}.

(** The strategy on a bearer token: the verified payload is handed to
    [validate]; [None] is a rejected request. *)
Definition authenticate (opts : StrategyOptions) (clock : Z) (token : string)
  : option ReqUser.t :=
  validate <$> jwt_verify opts clock token.

End JwtStrategy.

(* ===================================================================== *)
(** ** Concrete data for running the model *)
(* ===================================================================== *)

(** A stand-in digest: it only has to be a function of the plaintext
    and the salt. *)
Definition demo_bcrypt : Bcrypt :=
  {| bcrypt_hash := fun data salt => "$2b$10$" +:+ salt +:+ "." +:+ data |}.

Definition demo_rt : Runtime := {| now := 200; genSalt := "salt" |}.

Definition demo_row (n e p : string) : Row.t :=
  {| Row.fullName := n; Row.email := e; Row.password := p;
     Row.phoneNumber := None; Row.role := customer; Row.isActive := true;
     Row.createdAt := 100; Row.updatedAt := 100 |}.

Definition alpha_row : Row.t :=
  demo_row "Alpha Code" "alpha@code.com" "$2b$10$salt.MyP@ssw0rd".
Definition beta_row : Row.t :=
  demo_row "Beta Code" "beta@code.com" "$2b$10$salt.0therP@ss".

(** Three uuids in the database's spelling: two accounts' and one no
    account has. *)
Definition alpha_id : string := "123e4567-e89b-12d3-a456-426614174001".
Definition beta_id : string := "123e4567-e89b-12d3-a456-426614174002".
Definition gamma_id : string := "123e4567-e89b-12d3-a456-426614174003".

(** Two accounts, [alpha_id] and [beta_id]. *)
Definition demo_table : Table :=
  <[alpha_id := alpha_row]> (<[beta_id := beta_row]> ∅).

Definition empty_dto : UpdateUserDto.t :=
  {| UpdateUserDto.fullName := None; UpdateUserDto.email := None;
     UpdateUserDto.password := None; UpdateUserDto.phoneNumber := None;
     UpdateUserDto.role := None; UpdateUserDto.isActive := None |}.

(** [{ phoneNumber: p }], [{ password: p }] and [{ email: e }]. *)
Definition only_phoneNumber (p : string) : UpdateUserDto.t :=
  {| UpdateUserDto.fullName := None; UpdateUserDto.email := None;
     UpdateUserDto.password := None; UpdateUserDto.phoneNumber := Some p;
     UpdateUserDto.role := None; UpdateUserDto.isActive := None |}.

Definition only_password (p : string) : UpdateUserDto.t :=
  {| UpdateUserDto.fullName := None; UpdateUserDto.email := None;
     UpdateUserDto.password := Some p; UpdateUserDto.phoneNumber := None;
     UpdateUserDto.role := None; UpdateUserDto.isActive := None |}.

Definition only_email (e : string) : UpdateUserDto.t :=
  {| UpdateUserDto.fullName := None; UpdateUserDto.email := Some e;
     UpdateUserDto.password := None; UpdateUserDto.phoneNumber := None;
     UpdateUserDto.role := None; UpdateUserDto.isActive := None |}.

(** The same two accounts after the service has set [alpha_id]'s email to the
    empty string. *)
Definition blank_table : Table :=
  store_after (@update demo_bcrypt demo_rt alpha_id (only_email "") demo_table).

(** A toy JWT library: four tokens parse, and a signature is valid
    under the secret ["s3cret"] unless the token is the forged one. *)
Definition demo_payload (e : Z) : JwtPayload.t :=
  {| JwtPayload.sub := alpha_id;
     JwtPayload.email := "alpha@code.com";
     JwtPayload.role := "customer";
     JwtPayload.iat := Some 1000;
     JwtPayload.exp := Some e;
     JwtPayload.nbf := None;
     JwtPayload.others := [("isAdmin", "true")] |}.

(** The same claims, not to be used before [n]. *)
Definition embargoed_payload (n e : Z) : JwtPayload.t :=
  {| JwtPayload.sub := alpha_id;
     JwtPayload.email := "alpha@code.com";
     JwtPayload.role := "customer";
     JwtPayload.iat := Some 1000;
     JwtPayload.exp := Some e;
     JwtPayload.nbf := Some n;
     JwtPayload.others := [] |}.

Definition demo_jwt : JsonWebToken :=
  {| jwt_decode := fun token =>
       if (token =? "fresh.token")%string then Some (demo_payload 5000)
       else if (token =? "stale.token")%string then Some (demo_payload 1500)
       else if (token =? "forged.token")%string then Some (demo_payload 5000)
       else if (token =? "early.token")%string then Some (embargoed_payload 3000 5000)
       else None;
     jwt_signature_valid := fun secret token =>
       (secret =? "s3cret")%string && negb (token =? "forged.token")%string |}.

Definition demo_config (key : string) : option string :=
  if (key =? "JWT_SECRET")%string then Some "s3cret" else None.

Definition gamma_dto : CreateUserDto.t :=
  {| CreateUserDto.fullName := "Gamma Code";
     CreateUserDto.email := "gamma@code.com";
     CreateUserDto.password := "MyP@ssw0rd";
     CreateUserDto.phoneNumber := Some "+233123456789";
     CreateUserDto.role := None |}.

(* ===================================================================== *)
(** ** The rest of the entity, the DTOs and the configuration *)
(* ===================================================================== *)

(** [bcrypt.compare(data, encrypted)]. *)
Class BcryptCompare : Type := { bcrypt_compare : string -> string -> bool }.

(** [async validatePassword(plainPassword)]: [bcrypt.compare] rejects
    when the digest it is handed is [undefined] (here [None]). *)
Definition validatePassword `{BcryptCompare} (this : User.t) (plainPassword : string)
  : option bool :=
  match User.password this with
  | Some digest => Some (bcrypt_compare plainPassword digest)
  | None => None
  end.

(** [LoginDto.password]: [@IsString()] and [@IsNotEmpty()], no strength
    rule. *)
Definition validate_login_password (password : string) : list string :=
  if IsNotEmpty password then [] else ["password should not be empty"].

(** The characters [.*] can run over from the start of a string: those
    before its first line terminator. *)
Fixpoint first_line (s : string) : list ascii :=
  match s with
  | String c s' => if dot c then c :: first_line s' else []
  | EmptyString => []
  end.

(** [{ isActive: b }]. *)
Definition only_isActive (b : bool) : UpdateUserDto.t :=
  {| UpdateUserDto.fullName := None; UpdateUserDto.email := None;
     UpdateUserDto.password := None; UpdateUserDto.phoneNumber := None;
     UpdateUserDto.role := None; UpdateUserDto.isActive := Some b |}.

(** The object [getDatabaseConfig] builds ([entities], a list of
    classes, is left out). *)
Module TypeOrmModuleOptions.
Record t : Type := mk {
  type : string;
  host : option string;
  port : option string;
  username : option string;
  password : option string;
  database : option string;
  synchronize : bool;
  logging : bool
}.
End TypeOrmModuleOptions.

(** [getDatabaseConfig(configService)], with [configService.get] as a
    lookup that yields nothing for a variable that is not set. *)
Definition getDatabaseConfig (configService : string -> option string)
  : TypeOrmModuleOptions.t :=
  {| TypeOrmModuleOptions.type := "postgres";
     TypeOrmModuleOptions.host := configService "DB_HOST";
     TypeOrmModuleOptions.port := configService "DB_PORT";
     TypeOrmModuleOptions.username := configService "DB_USERNAME";
     TypeOrmModuleOptions.password := configService "DB_PASSWORD";
     TypeOrmModuleOptions.database := configService "DB_NAME";
     TypeOrmModuleOptions.synchronize :=
       strict_neq (configService "NODE_ENV") (Some "production");
     TypeOrmModuleOptions.logging :=
       negb (strict_neq (configService "NODE_ENV") (Some "development")) |}.

(** Every key of the table is a uuid in the database's spelling, as
    in a table the database holds. *)
Definition canonical_keys (t : Table) : Prop :=
  forall i, is_Some (t !! i) -> uuid_in i = Some i.

(** Another spelling of [alpha_id]. *)
Definition alpha_id_braced : string := "{123E4567-E89B-12D3-A456-426614174001}".

(** No two rows of the table share an email. *)
Definition unique_emails (t : Table) : Prop :=
  forall i j r r',
    t !! i = Some r -> t !! j = Some r' -> Row.email r = Row.email r' -> i = j.

(** The same, as a check that runs. *)
Definition unique_emails_check (t : Table) : bool :=
  forallb (fun kv => negb (violates_unique_email t kv.1 (Row.email kv.2)))
          (map_to_list t).

(** Two ways a call can leave the table [t'] after [t]: one row added
    under a key that was free, or the row under [id] replaced by one
    with the same [createdAt]; either way the unique index on [email] is
    respected. *)
Definition inserted (t t' : Table) : Prop :=
  exists i r,
    t !! i = None
    /\ violates_unique_email t i (Row.email r) = false
    /\ t' = <[i := r]> t.

Definition replaced (id : string) (t t' : Table) : Prop :=
  exists r0 r,
    t !! id = Some r0
    /\ Row.createdAt r = Row.createdAt r0
    /\ (Row.email r = Row.email r0
        \/ violates_unique_email t id (Row.email r) = false)
    /\ t' = <[id := r]> t.

(** A toy [compare] for [demo_bcrypt]: the digest ends in a dot and the
    plaintext. *)
Definition demo_compare : BcryptCompare :=
  {| bcrypt_compare := fun data digest =>
       String.prefix (String.rev ("." +:+ data)) (String.rev digest) |}.

(** The toy JWT library with one more token, issued without [exp]. *)
Definition demo_jwt_no_exp : JsonWebToken :=
  {| jwt_decode := fun token =>
       if (token =? "eternal.token")%string then
         Some {| JwtPayload.sub := beta_id;
                 JwtPayload.email := "beta@code.com";
                 JwtPayload.role := "admin";
                 JwtPayload.iat := Some 1000;
                 JwtPayload.exp := None;
                 JwtPayload.nbf := None;
                 JwtPayload.others := [] |}
       else @jwt_decode demo_jwt token;
     jwt_signature_valid := @jwt_signature_valid demo_jwt |}.

Definition demo_opts : StrategyOptions :=
  {| ignoreExpiration := false; secretOrKey := "s3cret" |}.

Definition demo_env (mode : option string) (key : string) : option string :=
  if (key =? "NODE_ENV")%string then mode
  else if (key =? "DB_HOST")%string then Some "localhost"
  else None.

(* ===================================================================== *)
(** ** The table: queries and constraints *)
(* ===================================================================== *)

Section TableFacts.
Implicit Types (t : Table) (i j e : string) (r : Row.t).

Lemma where_email_spec e i r : where_email e (i, r) = true <-> Row.email r = e.
Proof. unfold where_email; simpl. apply String.eqb_eq. Qed.

(** A hit of the email query is a row of the table with that email. *)
Lemma find_email_Some t e i r :
  List.find (where_email e) (map_to_list t) = Some (i, r) ->
  t !! i = Some r /\ Row.email r = e.
Proof.
  intros Hf. apply find_some in Hf as [Hin Hw].
  apply list_elem_of_In, elem_of_map_to_list in Hin.
  apply where_email_spec in Hw. auto.
Qed.

(** The email query misses exactly when no row has the email. *)
Lemma find_email_None t e :
  List.find (where_email e) (map_to_list t) = None <->
  (forall i r, t !! i = Some r -> Row.email r <> e).
Proof.
  split.
  - intros Hf i r Hi He.
    assert (Hw : where_email e (i, r) = false).
    { apply (find_none _ _ Hf (i, r)).
      apply list_elem_of_In, elem_of_map_to_list, Hi. }
    pose proof (proj2 (where_email_spec e i r) He). congruence.
  - intros Hall. destruct (List.find _ _) as [[i r]|] eqn:Hf; [|reflexivity].
    apply find_email_Some in Hf as [Hi He]. destruct (Hall i r Hi He).
Qed.

Lemma find_email_Some' t e kv :
  List.find (where_email e) (map_to_list t) = Some kv ->
  exists i r, t !! i = Some r /\ Row.email r = e.
Proof. destruct kv as [i r]. intros Hq. apply find_email_Some in Hq. eauto. Qed.

Lemma find_email_held t e j r :
  t !! j = Some r -> Row.email r = e ->
  exists kv, List.find (where_email e) (map_to_list t) = Some kv.
Proof.
  intros Hj He. destruct (List.find _ _) as [kv|] eqn:Hf; [eauto|].
  destruct (proj1 (find_email_None t e) Hf j r Hj He).
Qed.

(** The unique index on [email], as a statement about the table. *)
Lemma violates_unique_email_spec t i e :
  violates_unique_email t i e = true <->
  exists j r, j <> i /\ t !! j = Some r /\ Row.email r = e.
Proof.
  unfold violates_unique_email. rewrite existsb_exists. split.
  - intros [[j r] [Hin Hb]]. apply andb_true_iff in Hb as [Hne Hw].
    exists j, r. repeat split.
    + simpl in Hne. apply negb_true_iff, String.eqb_neq in Hne. exact Hne.
    + apply list_elem_of_In, elem_of_map_to_list in Hin. exact Hin.
    + apply where_email_spec in Hw. exact Hw.
  - intros (j & r & Hne & Hj & He). exists (j, r). split.
    + apply list_elem_of_In, elem_of_map_to_list, Hj.
    + apply andb_true_iff. split.
      * simpl. apply negb_true_iff, String.eqb_neq, Hne.
      * apply where_email_spec, He.
Qed.

Lemma violates_unique_email_false t i e :
  (forall j r, j <> i -> t !! j = Some r -> Row.email r <> e) ->
  violates_unique_email t i e = false.
Proof.
  intros Hall. apply not_true_is_false. intros Hv.
  apply violates_unique_email_spec in Hv as (j & r & Hne & Hj & He).
  exact (Hall j r Hne Hj He).
Qed.

Lemma violates_unique_email_free t i e :
  violates_unique_email t i e = false ->
  forall j r, j <> i -> t !! j = Some r -> Row.email r <> e.
Proof.
  intros Hv j r Hne Hj He.
  assert (Ht : violates_unique_email t i e = true)
    by (apply violates_unique_email_spec; eauto).
  congruence.
Qed.

(** A generated identifier is not a key of the table. *)
Lemma uuid_generate_fresh t : t !! uuid_generate t = None.
Proof.
  unfold uuid_generate. apply not_elem_of_dom. apply is_fresh.
Qed.

End TableFacts.

(* ===================================================================== *)
(** ** [UsersService]: how each method runs *)
(* ===================================================================== *)

Section ServiceFacts.
Context `{Bcrypt}.
Implicit Types (t : Table) (id i j e : string) (r : Row.t) (rt : Runtime).

(** A key of the table names itself. *)
Lemma uuid_key_stored id r t : t !! id = Some r -> uuid_key t id = Some id.
Proof. intros Hid. unfold uuid_key. rewrite Hid. reflexivity. Qed.

(** A text that names a key is a key or spells one. *)
Lemma uuid_key_Some id k t :
  uuid_key t id = Some k ->
  (k = id /\ is_Some (t !! id)) \/ (t !! id = None /\ uuid_in id = Some k).
Proof.
  unfold uuid_key. destruct (t !! id) as [r|] eqn:Hid.
  - intros [= <-]. left. eauto.
  - intros Hin. right. auto.
Qed.

(** On a table whose keys are in the database's spelling, what a text
    names is what the database reads it as. *)
Lemma uuid_key_exact t id : canonical_keys t -> uuid_key t id = uuid_in id.
Proof.
  intros Hcanon. unfold uuid_key. destruct (t !! id) as [r|] eqn:Hid; [|reflexivity].
  symmetry. apply Hcanon. eauto.
Qed.

(** [findOne] by what the text names: a stored row, a uuid no row is
    stored under, or nothing. *)
Lemma findOne_named id k r t :
  uuid_key t id = Some k -> t !! k = Some r ->
  findOne id t = (Ok (select_default k r), t).
Proof.
  intros Hkey Hk. unfold findOne, bind, findOne_where_id.
  rewrite Hkey, Hk. reflexivity.
Qed.

Lemma findOne_absent id k t :
  uuid_key t id = Some k -> t !! k = None ->
  findOne id t
  = (Throw (NotFoundException ("User with ID " +:+ id +:+ " not found")), t).
Proof.
  intros Hkey Hk. unfold findOne, bind, findOne_where_id.
  rewrite Hkey, Hk. reflexivity.
Qed.

Lemma findOne_refused id t :
  uuid_key t id = None -> findOne id t = (Throw QueryFailedError, t).
Proof.
  intros Hkey. unfold findOne, bind, findOne_where_id. rewrite Hkey. reflexivity.
Qed.

Lemma findOne_found id r t :
  t !! id = Some r -> findOne id t = (Ok (select_default id r), t).
Proof.
  intros Hid. exact (findOne_named id id r t (uuid_key_stored _ _ _ Hid) Hid).
Qed.

(** [findOne] returns the row the text names, or throws and leaves the
    table. *)
Lemma findOne_cases id t :
  (exists k r, uuid_key t id = Some k /\ t !! k = Some r
               /\ findOne id t = findOne k t)
  \/ (exists err, findOne id t = (Throw err, t)).
Proof.
  destruct (uuid_key t id) as [k|] eqn:Hkey.
  - destruct (t !! k) as [r|] eqn:Hk.
    + left. exists k, r. split; [reflexivity|]. split; [exact Hk|].
      rewrite (findOne_named _ _ _ _ Hkey Hk), (findOne_found _ _ _ Hk).
      reflexivity.
    + right. rewrite (findOne_absent _ _ _ Hkey Hk). eauto.
  - right. rewrite (findOne_refused _ _ Hkey). eauto.
Qed.

(** A computation that starts with [findOne] depends on the text only
    through what [findOne] returns. *)
Lemma bind_same {A B} (m1 m2 : M A) (k : A -> M B) t :
  m1 t = m2 t -> bind m1 k t = bind m2 k t.
Proof. intros Heq. unfold bind. rewrite Heq. reflexivity. Qed.

Lemma bind_throw {A B} (m : M A) (k : A -> M B) t err t' :
  m t = (Throw err, t') -> bind m k t = (Throw err, t').
Proof. intros Heq. unfold bind. rewrite Heq. reflexivity. Qed.

(** [save] on an entity loaded from row [id] goes down the update path. *)
Lemma save_existing rt id r (u : User.t) t :
  User.id u = Some id -> t !! id = Some r ->
  save rt u t = update_row rt id r u t.
Proof. intros Hu Hid. unfold save. rewrite Hu, Hid. reflexivity. Qed.

(** [create] on a table where the email is free: one row is inserted
    under a new key, and the entity handed back is the saved object. *)
Lemma create_fresh rt (dto : CreateUserDto.t) t :
  (forall i r, t !! i = Some r -> Row.email r <> CreateUserDto.email dto) ->
  let pw := CreateUserDto.password dto in
  let stored := if truthy pw then bcrypt_hash pw (genSalt rt) else pw in
  let i := uuid_generate t in
  let r := {| Row.fullName := CreateUserDto.fullName dto;
              Row.email := CreateUserDto.email dto;
              Row.password := stored;
              Row.phoneNumber := CreateUserDto.phoneNumber dto;
              Row.role := default customer (CreateUserDto.role dto);
              Row.isActive := true;
              Row.createdAt := now rt;
              Row.updatedAt := now rt |} in
  let u := {| User.id := Some i;
              User.fullName := Some (CreateUserDto.fullName dto);
              User.email := Some (CreateUserDto.email dto);
              User.password := Some stored;
              User.phoneNumber := CreateUserDto.phoneNumber dto;
              User.role := Some (default customer (CreateUserDto.role dto));
              User.isActive := Some true;
              User.createdAt := Some (now rt);
              User.updatedAt := Some (now rt) |} in
  create rt dto t = (Ok u, <[i := r]> t).
Proof.
  intros Hfree. cbv zeta.
  assert (Hq : List.find (where_email (CreateUserDto.email dto)) (map_to_list t) = None)
    by (apply find_email_None; exact Hfree).
  assert (Hu : violates_unique_email t (uuid_generate t) (CreateUserDto.email dto) = false)
    by (apply violates_unique_email_false; intros j r _; apply Hfree).
  unfold create, bind, findOne_where_email. rewrite Hq. simpl.
  unfold save, repository_create. simpl.
  unfold insert_row, hashPasswordBeforeInsert. simpl.
  destruct (truthy (CreateUserDto.password dto)); simpl; rewrite Hu; reflexivity.
Qed.

Lemma create_taken rt (dto : CreateUserDto.t) t i r :
  t !! i = Some r -> Row.email r = CreateUserDto.email dto ->
  create rt dto t = (Throw (ConflictException "Email already exists"), t).
Proof.
  intros Hi He. destruct (find_email_held t _ i r Hi He) as [kv Hkv].
  unfold create, bind, findOne_where_email. rewrite Hkv. reflexivity.
Qed.

(** [update] on a stored account, unfolded to the repository calls. *)
Lemma update_found rt id (dto : UpdateUserDto.t) r t :
  t !! id = Some r ->
  update rt id dto t =
    let write := update_row rt id r (Object_assign (select_default id r) dto) t in
    if truthy_opt (UpdateUserDto.email dto)
       && strict_neq (UpdateUserDto.email dto) (Some (Row.email r))
    then
      match List.find (where_email (default "" (UpdateUserDto.email dto)))
                      (map_to_list t) with
      | Some _ => (Throw (ConflictException "Email already exists"), t)
      | None => write
      end
    else write.
Proof.
  intros Hid. unfold update. unfold bind at 1. rewrite (findOne_found _ _ _ Hid).
  simpl User.email. cbv zeta.
  destruct (truthy_opt _ && strict_neq _ _).
  - unfold bind, findOne_where_email, throw, ret.
    destruct (List.find _ _); simpl; [reflexivity|].
    apply save_existing; [reflexivity | exact Hid].
  - unfold bind, ret. apply save_existing; [reflexivity | exact Hid].
Qed.

(** The update path of [save] goes through when the email column is
    not changed or the new email is held by no other row; the row
    then holds the merged columns, and no other row is touched. *)
Lemma update_row_ok rt id r (u : User.t) t :
  t !! id = Some r ->
  Row.email (merge_columns u r) = Row.email r
  \/ violates_unique_email t id (Row.email (merge_columns u r)) = false ->
  exists u' t' r',
    update_row rt id r u t = (Ok u', t')
    /\ t' !! id = Some r'
    /\ (r' = merge_columns u r \/ r' = touch rt (merge_columns u r))
    /\ (forall j, j <> id -> t' !! j = t !! j)
    /\ User.password u' = User.password u.
Proof.
  intros Hid Hfree. unfold update_row. cbv zeta.
  destruct (differs u r) eqn:Hd; cbn [negb].
  2: { unfold differs in Hd. apply orb_false_iff in Hd as [Hd _].
       apply negb_false_iff, bool_decide_eq_true in Hd.
       exists u, t, r. rewrite Hd. auto 6. }
  - assert (Hgo : negb (Row.email (merge_columns u r) =? Row.email r)%string
                  && violates_unique_email t id (Row.email (merge_columns u r))
                  = false).
    { destruct Hfree as [He | Hv].
      - rewrite He, String.eqb_refl. reflexivity.
      - rewrite Hv. apply andb_false_r. }
    rewrite Hgo.
    exists (touch_entity rt u), (<[id := touch rt (merge_columns u r)]> t),
           (touch rt (merge_columns u r)).
    split; [reflexivity|]. split; [apply lookup_insert_eq|].
    split; [auto|]. split; [|reflexivity].
    intros j Hj. apply lookup_insert_ne. congruence.
Qed.

(** The update path of [save] is refused by the unique index when the
    email column changes to a value another row holds. *)
Lemma update_row_refused rt id r (u : User.t) t :
  Row.email (merge_columns u r) <> Row.email r ->
  violates_unique_email t id (Row.email (merge_columns u r)) = true ->
  update_row rt id r u t = (Throw QueryFailedError, t).
Proof.
  intros Hne Hv. unfold update_row, differs. cbv zeta.
  rewrite bool_decide_eq_false_2 by congruence. cbn [negb orb].
  rewrite Hv. apply String.eqb_neq in Hne. rewrite Hne. reflexivity.
Qed.

(** The update path of [save] never raises an HTTP exception. *)
Lemma update_row_no_conflict rt id r (u : User.t) t message :
  outcome (update_row rt id r u t) <> Throw (ConflictException message).
Proof.
  unfold update_row. cbv zeta.
  destruct (negb (differs u r)); [discriminate|].
  destruct (_ && _); discriminate.
Qed.

(** An entity as loaded, with [isActive] set to the value the row
    already has, does not differ from the row. *)
Lemma set_isActive_same id r :
  differs (set_isActive (select_default id r) (Row.isActive r)) r = false.
Proof.
  unfold differs. apply orb_false_iff. split; [|reflexivity].
  apply negb_false_iff, bool_decide_eq_true.
  destruct r as [n e p [ph|] ro a c m]; reflexivity.
Qed.

(** [remove] on a stored account. *)
Lemma remove_found rt id r t :
  t !! id = Some r ->
  exists t' r',
    remove rt id t
    = (Ok {| message := "User " +:+ Row.email r +:+ " has been deactivated" |}, t')
    /\ t' !! id = Some r'
    /\ Row.isActive r' = false
    /\ Row.email r' = Row.email r
    /\ (Row.isActive r = false -> t' = t).
Proof.
  intros Hid. unfold remove. unfold bind at 1.
  rewrite (findOne_found _ _ _ Hid). unfold bind.
  rewrite (save_existing rt id r) by (reflexivity || exact Hid).
  destruct (update_row_ok rt id r (set_isActive (select_default id r) false) t Hid)
    as (u' & t' & r' & Hrun & Hid' & Hr' & _ & _); [left; reflexivity|].
  rewrite Hrun. exists t', r'. split; [reflexivity|]. split; [exact Hid'|].
  split; [destruct Hr' as [-> | ->]; reflexivity|].
  split; [destruct Hr' as [-> | ->]; reflexivity|].
  intros Hoff. unfold update_row in Hrun. cbv zeta in Hrun.
  rewrite <- Hoff, set_isActive_same in Hrun. cbn [negb] in Hrun.
  congruence.
Qed.

End ServiceFacts.

(* ===================================================================== *)
(** ** [UsersService]: properties *)
(* ===================================================================== *)

Section ServiceProperties.
Context `{Bcrypt}.
Implicit Types (t : Table) (id i j e : string) (r : Row.t) (rt : Runtime).


(** C3. [create] with an email some account already holds throws
    [ConflictException] and leaves the table unchanged; with an email
    no account holds it succeeds and adds exactly one row, under a new
    key, carrying that email. *)
Theorem create_rejects_duplicate_email rt (dto : CreateUserDto.t) t :
  ((exists i r, t !! i = Some r /\ Row.email r = CreateUserDto.email dto) ->
     create rt dto t = (Throw (ConflictException "Email already exists"), t))
  /\ ((forall i r, t !! i = Some r -> Row.email r <> CreateUserDto.email dto) ->
      exists u i r,
        create rt dto t = (Ok u, <[i := r]> t)
        /\ t !! i = None
        /\ User.id u = Some i
        /\ Row.email r = CreateUserDto.email dto).
Proof.
  split.
  - intros (i & r & Hi & He). exact (create_taken rt dto t i r Hi He).
  - intros Hfree. eexists _, _, _. split; [apply create_fresh, Hfree|].
    split; [apply uuid_generate_fresh|]. split; reflexivity.
Qed.

(** After [create] with a free email, [findOne] on the new account's
    [id] returns it active, with the role of the request or [customer]
    when the request names none, and without the [password] property. *)
Theorem create_then_findOne rt (dto : CreateUserDto.t) t :
  (forall i r, t !! i = Some r -> Row.email r <> CreateUserDto.email dto) ->
  exists u i t' u',
    create rt dto t = (Ok u, t')
    /\ User.id u = Some i
    /\ findOne i t' = (Ok u', t')
    /\ User.email u' = Some (CreateUserDto.email dto)
    /\ User.isActive u' = Some true
    /\ User.role u' = Some (default customer (CreateUserDto.role dto))
    /\ User.password u' = None.
Proof.
  intros Hfree. eexists _, _, _, _. split; [apply create_fresh, Hfree|].
  split; [reflexivity|].
  split; [apply findOne_found, lookup_insert_eq|].
  repeat split.
Qed.

(** C2, as the code behaves.  [create] with a free email persists the
    account, and the object it returns is the saved entity with the
    [password] property still on it, holding the very digest that was
    written to the row. *)
Theorem create_returns_stored_digest rt (dto : CreateUserDto.t) t :
  (forall i r, t !! i = Some r -> Row.email r <> CreateUserDto.email dto) ->
  exists u i r,
    create rt dto t = (Ok u, <[i := r]> t)
    /\ t !! i = None
    /\ User.password u = Some (Row.password r)
    /\ Row.password r
       = if truthy (CreateUserDto.password dto)
         then bcrypt_hash (CreateUserDto.password dto) (genSalt rt)
         else CreateUserDto.password dto.
Proof.
  intros Hfree. eexists _, _, _. split; [apply create_fresh, Hfree|].
  split; [apply uuid_generate_fresh|]. split; reflexivity.
Qed.

(** C6. [remove] on a stored account succeeds, leaves [isActive] false
    and answers with a message built from the account's email; calling
    it again on the resulting table succeeds too, answers with the same
    message, writes nothing, and [isActive] stays false. *)
Theorem remove_twice rt1 rt2 id r t :
  t !! id = Some r ->
  let confirmation :=
    {| message := "User " +:+ Row.email r +:+ " has been deactivated" |} in
  exists t1 r1,
    remove rt1 id t = (Ok confirmation, t1)
    /\ t1 !! id = Some r1 /\ Row.isActive r1 = false
    /\ remove rt2 id t1 = (Ok confirmation, t1).
Proof.
  intros Hid confirmation. subst confirmation.
  destruct (remove_found rt1 id r t Hid) as (t1 & r1 & Hrun1 & Hid1 & Hact1 & He1 & _).
  destruct (remove_found rt2 id r1 t1 Hid1) as (t2 & r2 & Hrun2 & _ & _ & _ & Hsame).
  rewrite He1, (Hsame Hact1) in Hrun2.
  exists t1, r1. auto.
Qed.

(** C4. [update] with [{ phoneNumber: p }] on a stored account succeeds;
    afterwards the account's row has [phoneNumber] set to [p], may
    differ from the old row in [updatedAt], and agrees with it on every
    other column, [password] included; the other rows are untouched. *)
Theorem update_phoneNumber_only rt id p r t :
  t !! id = Some r ->
  exists u t' r',
    update rt id (only_phoneNumber p) t = (Ok u, t')
    /\ t' !! id = Some r'
    /\ r' = {| Row.fullName := Row.fullName r;
               Row.email := Row.email r;
               Row.password := Row.password r;
               Row.phoneNumber := Some p;
               Row.role := Row.role r;
               Row.isActive := Row.isActive r;
               Row.createdAt := Row.createdAt r;
               Row.updatedAt := Row.updatedAt r' |}
    /\ (forall j, j <> id -> t' !! j = t !! j).
Proof.
  intros Hid. rewrite (update_found _ _ _ _ _ Hid). simpl.
  destruct (update_row_ok rt id r
              (Object_assign (select_default id r) (only_phoneNumber p)) t Hid)
    as (u' & t' & r' & Hrun & Hid' & Hr' & Hothers & _); [left; reflexivity|].
  exists u', t', r'. split; [exact Hrun|]. split; [exact Hid'|].
  split; [|exact Hothers].
  destruct Hr' as [-> | ->]; reflexivity.
Qed.

(** C1, as the code behaves.  [update] with [{ password: p }] on a
    stored account succeeds and writes [p] itself into the [password]
    column: [save] takes the update path, on which the entity has no
    hook, so no digest is computed.  The returned object carries [p]
    as well. *)
Theorem update_password_stored_as_given rt id p r t :
  t !! id = Some r ->
  exists u t' r',
    update rt id (only_password p) t = (Ok u, t')
    /\ t' !! id = Some r'
    /\ Row.password r' = p
    /\ User.password u = Some p.
Proof.
  intros Hid. rewrite (update_found _ _ _ _ _ Hid). simpl.
  destruct (update_row_ok rt id r
              (Object_assign (select_default id r) (only_password p)) t Hid)
    as (u' & t' & r' & Hrun & Hid' & Hr' & _ & Hpw); [left; reflexivity|].
  exists u', t', r'. split; [exact Hrun|]. split; [exact Hid'|].
  split; [|exact Hpw].
  destruct Hr' as [-> | ->]; reflexivity.
Qed.

(** The half of C1 the code does keep: an [update] whose DTO has no
    [password] leaves the stored [password] column as it was, whether
    the call succeeds or throws. *)
Theorem update_without_password_keeps_column rt id (dto : UpdateUserDto.t) r t :
  t !! id = Some r ->
  UpdateUserDto.password dto = None ->
  exists r',
    store_after (update rt id dto t) !! id = Some r'
    /\ Row.password r' = Row.password r.
Proof.
  intros Hid Hpw. rewrite (update_found _ _ _ _ _ Hid). cbv zeta.
  assert (Hwrite : exists r',
    store_after (update_row rt id r (Object_assign (select_default id r) dto) t)
      !! id = Some r' /\ Row.password r' = Row.password r).
  { unfold update_row. cbv zeta.
    destruct (negb (differs _ r)); [exists r; auto|].
    destruct (_ && _); [exists r; auto|].
    eexists. split; [apply lookup_insert_eq|].
    simpl. rewrite Hpw. reflexivity. }
  destruct (_ && _); [|exact Hwrite].
  destruct (List.find _ _); [exists r; auto | exact Hwrite].
Qed.

(** C5, amended.  Let [update] be called on a stored account with a
    DTO whose [email] is [e].  If [e] is not the empty string and
    differs from the account's email, the call throws
    [ConflictException] exactly when another account holds [e].  If [e]
    is the account's email, no lookup by email is made and the call
    succeeds. *)
Theorem update_email_conflict rt id (dto : UpdateUserDto.t) e r t :
  t !! id = Some r ->
  UpdateUserDto.email dto = Some e ->
  (e <> "" -> e <> Row.email r ->
     ((exists message,
         outcome (update rt id dto t) = Throw (ConflictException message))
      <-> (exists j r', j <> id /\ t !! j = Some r' /\ Row.email r' = e)))
  /\ (e = Row.email r -> exists u t', update rt id dto t = (Ok u, t')).
Proof.
  intros Hid He. rewrite (update_found _ _ _ _ _ Hid). cbv zeta. rewrite He.
  split.
  - intros Hne Hdiff.
    assert (Hguard : truthy_opt (Some e) && strict_neq (Some e) (Some (Row.email r))
                     = true).
    { apply andb_true_iff. split.
      - simpl. unfold truthy. apply negb_true_iff, String.eqb_neq, Hne.
      - unfold strict_neq. apply negb_true_iff, bool_decide_eq_false.
        congruence. }
    rewrite Hguard. simpl default. split.
    + intros [message Hthrow].
      destruct (List.find _ _) as [[j r']|] eqn:Hq.
      * apply find_email_Some in Hq as [Hj He'].
        exists j, r'. repeat split; try assumption. congruence.
      * destruct (update_row_no_conflict _ _ _ _ _ _ Hthrow).
    + intros (j & r' & _ & Hj & He').
      destruct (find_email_held t e j r' Hj He') as [kv ->]. simpl. eauto.
  - intros Hsame.
    assert (Hguard : truthy_opt (Some e) && strict_neq (Some e) (Some (Row.email r))
                     = false).
    { apply andb_false_iff. right. unfold strict_neq.
      apply negb_false_iff, bool_decide_eq_true. congruence. }
    rewrite Hguard.
    destruct (update_row_ok rt id r (Object_assign (select_default id r) dto) t Hid)
      as (u' & t' & _ & Hrun & _); [left; simpl; rewrite He; auto|].
    eauto.
Qed.

(** C10, amended.  Let [update] be called on a stored account with a
    DTO whose [email] is the empty string.  The call never throws
    [ConflictException], whoever holds the empty email; and unless
    another account already stores the empty email, it succeeds and the
    account's stored email becomes the empty string. *)
Theorem update_empty_email rt id (dto : UpdateUserDto.t) r t :
  t !! id = Some r ->
  UpdateUserDto.email dto = Some "" ->
  (forall message,
     outcome (update rt id dto t) <> Throw (ConflictException message))
  /\ ((forall j r', j <> id -> t !! j = Some r' -> Row.email r' <> "") ->
      exists u t' r',
        update rt id dto t = (Ok u, t')
        /\ t' !! id = Some r'
        /\ Row.email r' = "").
Proof.
  intros Hid He. rewrite (update_found _ _ _ _ _ Hid). cbv zeta. rewrite He.
  simpl andb. cbv iota. split.
  - intros message. apply update_row_no_conflict.
  - intros Hfree.
    assert (Hm : Row.email (merge_columns (Object_assign (select_default id r) dto) r)
                 = "") by (simpl; rewrite He; reflexivity).
    destruct (update_row_ok rt id r (Object_assign (select_default id r) dto) t Hid)
      as (u' & t' & r' & Hrun & Hid' & Hr' & _).
    { right. rewrite Hm. apply violates_unique_email_false, Hfree. }
    exists u', t', r'. split; [exact Hrun|]. split; [exact Hid'|].
    destruct Hr' as [-> | ->]; exact Hm.
Qed.

End ServiceProperties.

(* ===================================================================== *)
(** ** [UsersService]: the properties on concrete tables *)
(* ===================================================================== *)



Lemma create_rejects_duplicate_email_demo :
  @create demo_bcrypt demo_rt
     {| CreateUserDto.fullName := "Alpha Again";
        CreateUserDto.email := "alpha@code.com";
        CreateUserDto.password := "MyP@ssw0rd";
        CreateUserDto.phoneNumber := None;
        CreateUserDto.role := None |} demo_table
  = (Throw (ConflictException "Email already exists"), demo_table)
  /\ exists u i r,
       @create demo_bcrypt demo_rt gamma_dto demo_table = (Ok u, <[i := r]> demo_table)
       /\ demo_table !! i = None
       /\ User.id u = Some i
       /\ Row.email r = "gamma@code.com".
Proof.
  split.
  - apply (@create_rejects_duplicate_email demo_bcrypt).
    exists alpha_id, alpha_row. split; vm_compute; reflexivity.
  - apply (@create_rejects_duplicate_email demo_bcrypt demo_rt gamma_dto demo_table).
    apply find_email_None. vm_compute. reflexivity.
Defined.

Lemma create_returns_stored_digest_demo :
  exists u i r,
    @create demo_bcrypt demo_rt gamma_dto demo_table = (Ok u, <[i := r]> demo_table)
    /\ demo_table !! i = None
    /\ User.password u = Some (Row.password r)
    /\ Row.password r = "$2b$10$salt.MyP@ssw0rd".
Proof.
  apply (@create_returns_stored_digest demo_bcrypt demo_rt gamma_dto demo_table).
  apply find_email_None. vm_compute. reflexivity.
Defined.

Lemma create_then_findOne_demo :
  exists u i t' u',
    @create demo_bcrypt demo_rt gamma_dto demo_table = (Ok u, t')
    /\ User.id u = Some i
    /\ findOne i t' = (Ok u', t')
    /\ User.email u' = Some "gamma@code.com"
    /\ User.isActive u' = Some true
    /\ User.role u' = Some customer
    /\ User.password u' = None.
Proof.
  apply (@create_then_findOne demo_bcrypt demo_rt gamma_dto demo_table).
  apply find_email_None. vm_compute. reflexivity.
Defined.

Lemma remove_twice_demo :
  exists t1 r1,
    @remove demo_bcrypt demo_rt alpha_id demo_table
    = (Ok {| message := "User alpha@code.com has been deactivated" |}, t1)
    /\ t1 !! alpha_id = Some r1 /\ Row.isActive r1 = false
    /\ @remove demo_bcrypt {| now := 300; genSalt := "pepper" |} alpha_id t1
       = (Ok {| message := "User alpha@code.com has been deactivated" |}, t1).
Proof.
  apply (@remove_twice demo_bcrypt demo_rt {| now := 300; genSalt := "pepper" |}
           alpha_id alpha_row demo_table).
  vm_compute. reflexivity.
Defined.

Lemma update_phoneNumber_only_demo :
  exists u t' r',
    @update demo_bcrypt demo_rt alpha_id (only_phoneNumber "+233999999999") demo_table
    = (Ok u, t')
    /\ t' !! alpha_id = Some r'
    /\ r' = {| Row.fullName := "Alpha Code";
               Row.email := "alpha@code.com";
               Row.password := "$2b$10$salt.MyP@ssw0rd";
               Row.phoneNumber := Some "+233999999999";
               Row.role := customer;
               Row.isActive := true;
               Row.createdAt := 100;
               Row.updatedAt := Row.updatedAt r' |}
    /\ (forall j, j <> alpha_id -> t' !! j = demo_table !! j).
Proof.
  apply (@update_phoneNumber_only demo_bcrypt demo_rt alpha_id "+233999999999"
           alpha_row demo_table).
  vm_compute. reflexivity.
Defined.

Lemma update_password_stored_as_given_demo :
  exists u t' r',
    @update demo_bcrypt demo_rt alpha_id (only_password "NewP@ss123") demo_table
    = (Ok u, t')
    /\ t' !! alpha_id = Some r'
    /\ Row.password r' = "NewP@ss123"
    /\ User.password u = Some "NewP@ss123".
Proof.
  apply (@update_password_stored_as_given demo_bcrypt demo_rt alpha_id "NewP@ss123"
           alpha_row demo_table).
  vm_compute. reflexivity.
Defined.

Lemma update_without_password_keeps_column_demo :
  exists r',
    store_after (@update demo_bcrypt demo_rt alpha_id (only_email "alpha@shelf.com")
                   demo_table) !! alpha_id = Some r'
    /\ Row.password r' = "$2b$10$salt.MyP@ssw0rd".
Proof.
  apply (@update_without_password_keeps_column demo_bcrypt demo_rt alpha_id
           (only_email "alpha@shelf.com") alpha_row demo_table).
  - vm_compute. reflexivity.
  - reflexivity.
Defined.

Lemma update_email_conflict_demo :
  ((exists message,
      outcome (@update demo_bcrypt demo_rt beta_id (only_email "alpha@code.com") demo_table)
      = Throw (ConflictException message))
   <-> (exists j r', j <> beta_id /\ demo_table !! j = Some r'
                     /\ Row.email r' = "alpha@code.com"))
  /\ exists u t',
       @update demo_bcrypt demo_rt beta_id (only_email "beta@code.com") demo_table
       = (Ok u, t').
Proof.
  split.
  - apply (@update_email_conflict demo_bcrypt demo_rt beta_id
             (only_email "alpha@code.com") "alpha@code.com" beta_row demo_table).
    + vm_compute. reflexivity.
    + reflexivity.
    + discriminate.
    + discriminate.
  - apply (@update_email_conflict demo_bcrypt demo_rt beta_id
             (only_email "beta@code.com") "beta@code.com" beta_row demo_table).
    + vm_compute. reflexivity.
    + reflexivity.
    + reflexivity.
Defined.

Lemma update_empty_email_demo :
  (forall message,
     outcome (@update demo_bcrypt demo_rt alpha_id (only_email "") demo_table)
     <> Throw (ConflictException message))
  /\ exists u t' r',
       @update demo_bcrypt demo_rt alpha_id (only_email "") demo_table = (Ok u, t')
       /\ t' !! alpha_id = Some r'
       /\ Row.email r' = "".
Proof.
  split.
  - apply (@update_empty_email demo_bcrypt demo_rt alpha_id (only_email "")
             alpha_row demo_table).
    + vm_compute. reflexivity.
    + reflexivity.
  - apply (@update_empty_email demo_bcrypt demo_rt alpha_id (only_email "")
             alpha_row demo_table).
    + vm_compute. reflexivity.
    + reflexivity.
    + apply violates_unique_email_free. vm_compute. reflexivity.
Defined.

(** C5 as stated fails.  In [blank_table] account [alpha_id] holds the empty
    email and [beta_id] holds another one.  [update] of [beta_id] with
    [{ email: "" }] carries an email that differs from [beta_id]'s and that
    another account holds, yet the call does not throw
    [ConflictException]: the guard skips the lookup, and the write is
    then refused by the unique index. *)
Lemma blank_email_update_is_not_a_conflict :
  blank_table !! beta_id = Some beta_row
  /\ UpdateUserDto.email (only_email "") = Some ""
  /\ "" <> Row.email beta_row
  /\ (exists j r', j <> beta_id /\ blank_table !! j = Some r' /\ Row.email r' = "")
  /\ @update demo_bcrypt demo_rt beta_id (only_email "") blank_table
     = (Throw QueryFailedError, blank_table).
Proof.
  split; [vm_compute; reflexivity|].
  split; [reflexivity|].
  split; [discriminate|].
  split; [|vm_compute; reflexivity].
  eexists alpha_id, _.
  split; [discriminate|]. split; [vm_compute; reflexivity | reflexivity].
Qed.

(** C10 as stated fails.  In [blank_table], [update] of the stored
    account [beta_id] with the falsy email [""] does not overwrite [beta_id]'s
    email: the call throws and the row still holds [beta@code.com]. *)
Lemma blank_email_update_not_overwritten :
  blank_table !! beta_id = Some beta_row
  /\ UpdateUserDto.email (only_email "") = Some ""
  /\ truthy_opt (UpdateUserDto.email (only_email "")) = false
  /\ outcome (@update demo_bcrypt demo_rt beta_id (only_email "") blank_table)
     = Throw QueryFailedError
  /\ Row.email
       <$> store_after (@update demo_bcrypt demo_rt beta_id (only_email "") blank_table)
           !! beta_id
     = Some "beta@code.com".
Proof.
  split; [vm_compute; reflexivity|].
  split; [reflexivity|].
  split; [reflexivity|].
  split; vm_compute; reflexivity.
Qed.

(* ===================================================================== *)
(** ** The password rule of [CreateUserDto] *)
(* ===================================================================== *)

Section PasswordRule.

(** A lookahead [(?=.*[set])] that matches finds a character of the
    set in the string. *)
Lemma lookahead_finds set s :
  match_items [Many dot; One set] s = true ->
  existsb set (list_ascii_of_string s) = true.
Proof.
  induction s as [|c s IH]; simpl.
  - discriminate.
  - intros Hm. apply orb_true_iff in Hm as [Hhere | Hlater].
    + apply andb_true_iff in Hhere as [Hc _]. rewrite Hc. reflexivity.
    + apply andb_true_iff in Hlater as [_ Hrest].
      rewrite (IH Hrest). apply orb_true_r.
Qed.

Lemma validate_password_nil password :
  validate_password password = [] ->
  MinLength 8 password = true /\ Matches password_pattern password = true.
Proof.
  unfold validate_password.
  destruct (IsNotEmpty password); [|discriminate].
  destruct (MinLength 8 password); [|discriminate].
  destruct (Matches password_pattern password); [auto | discriminate].
Qed.

(** Every password the decorators accept satisfies the documented
    rule: at least 8 characters with a lowercase letter, an uppercase
    letter, a digit and one of the symbols. *)
Theorem accepted_password_meets_documented_rule password :
  password_accepted password = true ->
  documented_password_rule password = true.
Proof.
  intros Hacc. apply bool_decide_eq_true in Hacc.
  apply validate_password_nil in Hacc as [Hlen Hm].
  unfold Matches, test, password_pattern in Hm.
  cbn [match_nodes] in Hm.
  apply andb_true_iff in Hm as [Hl Hm].
  apply andb_true_iff in Hm as [Hu Hm].
  apply andb_true_iff in Hm as [Hd Hm].
  apply andb_true_iff in Hm as [Hs _].
  unfold documented_password_rule. cbv zeta.
  unfold MinLength in Hlen. rewrite Hlen.
  rewrite (lookahead_finds _ _ Hl), (lookahead_finds _ _ Hu),
          (lookahead_finds _ _ Hd), (lookahead_finds _ _ Hs).
  reflexivity.
Qed.

(** The two passwords the documentation names: ["password"] is turned
    down with the pattern's message, ["MyP@ssw0rd"] passes. *)
Theorem documented_password_examples :
  validate_password "password"
  = ["Password must contain uppercase, lowercase, number and special character"]
  /\ validate_password "MyP@ssw0rd" = [].
Proof. split; vm_compute; reflexivity. Qed.

(** C8, as the code behaves.  ["#Abcdef1@"] has nine characters, among
    them a lowercase letter, an uppercase letter, a digit and the
    symbol [@], so the documented rule holds of it; the decorators
    turn it down all the same, because the pattern ends in a character
    set without quantifier that the first character has to belong
    to. *)
Theorem password_first_character_restricted :
  documented_password_rule "#Abcdef1@" = true
  /\ validate_password "#Abcdef1@"
     = ["Password must contain uppercase, lowercase, number and special character"]
  /\ validate_password "Abcdef1@#" = [].
Proof. repeat split; vm_compute; reflexivity. Qed.

End PasswordRule.

Lemma accepted_password_meets_documented_rule_demo :
  documented_password_rule "MyP@ssw0rd" = true.
Proof.
  apply (accepted_password_meets_documented_rule "MyP@ssw0rd").
  vm_compute. reflexivity.
Defined.

(* ===================================================================== *)
(** ** [JwtStrategy]: what is accepted *)
(* ===================================================================== *)

Section JwtProperties.
Context `{JsonWebToken}.

Lemma not_yet_active_spec clock payload :
  not_yet_active clock payload = true
  <-> exists n, JwtPayload.nbf payload = Some n /\ clock < n.
Proof.
  unfold not_yet_active. destruct (JwtPayload.nbf payload) as [n|].
  - rewrite Z.ltb_lt. split; [eauto | intros (n' & [= <-] & Hlt); exact Hlt].
  - split; [discriminate | intros (n & Hn & _); discriminate].
Qed.

Lemma expired_spec opts clock payload :
  ignoreExpiration opts = false ->
  expired opts clock payload = true
  <-> exists e, JwtPayload.exp payload = Some e /\ e <= clock.
Proof.
  intros Hopt. unfold expired. rewrite Hopt.
  destruct (JwtPayload.exp payload) as [e|]; cbn [negb andb].
  - rewrite Z.leb_le. split; [eauto | intros (e' & [= <-] & Hle); exact Hle].
  - split; [discriminate | intros (e & He & _); discriminate].
Qed.

(** C7, amended.  Let the strategy be constructed from a configuration.
    Then [JWT_SECRET] is set and not empty, and for every clock and
    token: the token is rejected exactly when it does not parse, or its
    signature is not valid under that secret, or its [nbf] is after the
    clock, or its [exp] is not after the clock; any other token is
    accepted, and the identity handed on consists of the payload's
    [sub], [email] and [role] and nothing else.  The strategy is a
    function of its options, the clock and the token: the users table is
    not among its arguments. *)
Theorem jwt_strategy_accepts configService opts :
  JwtStrategy_constructor configService = Some opts ->
  exists secret,
    configService "JWT_SECRET" = Some secret
    /\ secret <> ""
    /\ forall clock token,
         (authenticate opts clock token = None
          <-> (jwt_decode token = None
               \/ jwt_signature_valid secret token = false
               \/ (exists payload n,
                     jwt_decode token = Some payload
                     /\ JwtPayload.nbf payload = Some n /\ clock < n)
               \/ exists payload e,
                    jwt_decode token = Some payload
                    /\ JwtPayload.exp payload = Some e /\ e <= clock))
         /\ (forall payload,
               jwt_decode token = Some payload ->
               authenticate opts clock token <> None ->
               authenticate opts clock token
               = Some {| ReqUser.id := JwtPayload.sub payload;
                         ReqUser.email := JwtPayload.email payload;
                         ReqUser.role := JwtPayload.role payload |}).
Proof.
  unfold JwtStrategy_constructor.
  destruct (configService "JWT_SECRET") as [secret|]; [|discriminate].
  destruct (truthy secret) eqn:Hsecret; [|discriminate].
  intros [= <-]. exists secret. split; [reflexivity|].
  split.
  { unfold truthy in Hsecret. apply negb_true_iff, String.eqb_neq in Hsecret.
    exact Hsecret. }
  set (opts := {| ignoreExpiration := false; secretOrKey := secret |}).
  intros clock token. unfold authenticate, jwt_verify. cbn [secretOrKey opts].
  destruct (jwt_decode token) as [payload|]; [|split; [tauto | intros p [=]]].
  destruct (jwt_signature_valid secret token); cbn [negb];
    [|split; [tauto | intros p _ Hacc; destruct (Hacc eq_refl)]].
  pose proof (not_yet_active_spec clock payload) as Hnbf.
  pose proof (expired_spec opts clock payload eq_refl) as Hexp.
  destruct (not_yet_active clock payload).
  { split; [|intros p _ Hacc; destruct (Hacc eq_refl)].
    split; [|reflexivity]. intros _. right. right. left.
    destruct (proj1 Hnbf eq_refl) as (n & Hn & Hlt). eauto. }
  destruct (expired opts clock payload).
  { split; [|intros p _ Hacc; destruct (Hacc eq_refl)].
    split; [|reflexivity]. intros _. right. right. right.
    destruct (proj1 Hexp eq_refl) as (e & He & Hle). eauto. }
  split; [|intros p [= <-] _; reflexivity].
  split; [discriminate|].
  intros [Hd | [Hs | [(p & n & [= <-] & Hn & Hlt) | (p & e & [= <-] & He & Hle)]]].
  - discriminate.
  - discriminate.
  - assert (Hcontra : false = true) by (apply Hnbf; eauto). discriminate.
  - assert (Hcontra : false = true) by (apply Hexp; eauto). discriminate.
Qed.

End JwtProperties.

Lemma jwt_strategy_accepts_demo :
  exists secret,
    demo_config "JWT_SECRET" = Some secret
    /\ secret <> ""
    /\ forall clock token,
         (@authenticate demo_jwt {| ignoreExpiration := false; secretOrKey := "s3cret" |}
            clock token = None
          <-> (@jwt_decode demo_jwt token = None
               \/ @jwt_signature_valid demo_jwt secret token = false
               \/ (exists payload n,
                     @jwt_decode demo_jwt token = Some payload
                     /\ JwtPayload.nbf payload = Some n /\ clock < n)
               \/ exists payload e,
                    @jwt_decode demo_jwt token = Some payload
                    /\ JwtPayload.exp payload = Some e /\ e <= clock))
         /\ (forall payload,
               @jwt_decode demo_jwt token = Some payload ->
               @authenticate demo_jwt {| ignoreExpiration := false; secretOrKey := "s3cret" |}
                 clock token <> None ->
               @authenticate demo_jwt {| ignoreExpiration := false; secretOrKey := "s3cret" |}
                 clock token
               = Some {| ReqUser.id := JwtPayload.sub payload;
                         ReqUser.email := JwtPayload.email payload;
                         ReqUser.role := JwtPayload.role payload |}).
Proof.
  apply (@jwt_strategy_accepts demo_jwt demo_config).
  reflexivity.
Defined.

(** C7 as stated fails.  The token [early.token] parses, its signature
    is valid under the configured secret and at clock 2000 its [exp]
    (5000) has not passed, so it is none of the tokens the claim has
    rejected; the strategy rejects it all the same, because its [nbf]
    (3000) is still ahead. *)
Lemma token_before_nbf_is_rejected :
  JwtStrategy_constructor demo_config
  = Some {| ignoreExpiration := false; secretOrKey := "s3cret" |}
  /\ @jwt_decode demo_jwt "early.token" = Some (embargoed_payload 3000 5000)
  /\ @jwt_signature_valid demo_jwt "s3cret" "early.token" = true
  /\ JwtPayload.exp (embargoed_payload 3000 5000) = Some 5000
  /\ 2000 < 5000
  /\ @authenticate demo_jwt {| ignoreExpiration := false; secretOrKey := "s3cret" |}
       2000 "early.token" = None.
Proof. repeat split. Qed.

(** The toy tokens through the strategy at clock 2000: the fresh one
    yields the three claim fields and drops [isAdmin]; the stale, the
    forged and the malformed one are rejected. *)
Example jwt_strategy_on_demo_tokens :
  let opts := {| ignoreExpiration := false; secretOrKey := "s3cret" |} in
  @authenticate demo_jwt opts 2000 "fresh.token"
  = Some {| ReqUser.id := alpha_id; ReqUser.email := "alpha@code.com";
            ReqUser.role := "customer" |}
  /\ @authenticate demo_jwt opts 2000 "stale.token" = None
  /\ @authenticate demo_jwt opts 2000 "forged.token" = None
  /\ @authenticate demo_jwt opts 2000 "not a token" = None.
Proof. repeat split. Qed.

(* ===================================================================== *)
(** ** [UsersService]: what a call can do to the table *)
(* ===================================================================== *)

Section StoreEffects.
Context `{Bcrypt}.
Implicit Types (t : Table) (id i j e : string) (r : Row.t) (rt : Runtime).

Lemma insert_row_effect rt i (u : User.t) t :
  t !! i = None ->
  insert_row rt i u t = (Throw QueryFailedError, t)
  \/ exists u' t', insert_row rt i u t = (Ok u', t') /\ inserted t t'.
Proof.
  intros Hfree. unfold insert_row. cbv zeta.
  destruct (User.fullName _) as [n|]; [|auto].
  destruct (User.email _) as [e|]; [|auto].
  destruct (User.password _) as [p|]; [|auto].
  destruct (violates_unique_email t i e) eqn:Hv; [auto|].
  right. eexists _, _. split; [reflexivity|].
  eexists i, _. refine (conj Hfree (conj _ eq_refl)). exact Hv.
Qed.

Lemma update_row_effect rt id r (u : User.t) t :
  t !! id = Some r ->
  update_row rt id r u t = (Throw QueryFailedError, t)
  \/ exists u' t',
       update_row rt id r u t = (Ok u', t') /\ (t' = t \/ replaced id t t').
Proof.
  intros Hid. unfold update_row. cbv zeta.
  destruct (negb (differs u r)); [right; eauto|].
  destruct (negb (_ =? _)%string) eqn:Hsame; cbn [andb].
  - destruct (violates_unique_email t id _) eqn:Hv; [auto|].
    right. eexists _, _. split; [reflexivity|]. right.
    eexists r, _. refine (conj Hid (conj _ (conj _ eq_refl))); [reflexivity|].
    right. exact Hv.
  - right. eexists _, _. split; [reflexivity|]. right.
    eexists r, _. refine (conj Hid (conj _ (conj _ eq_refl))); [reflexivity|].
    left. apply negb_false_iff, String.eqb_eq in Hsame. exact Hsame.
Qed.

(** A call on a text goes as [findOne] on that text goes: it throws
    what [findOne] throws, and otherwise it is the call on the key the
    text names. *)
Lemma update_cases rt id (dto : UpdateUserDto.t) t :
  (exists k r, uuid_key t id = Some k /\ t !! k = Some r
               /\ update rt id dto t = update rt k dto t)
  \/ (exists err, findOne id t = (Throw err, t)
                  /\ update rt id dto t = (Throw err, t)).
Proof.
  destruct (findOne_cases id t) as [(k & r & Hkey & Hk & Heq) | [err Hthrow]].
  - left. exists k, r. split; [exact Hkey|]. split; [exact Hk|].
    unfold update. apply bind_same, Heq.
  - right. exists err. split; [exact Hthrow|].
    unfold update. apply bind_throw, Hthrow.
Qed.

Lemma remove_cases rt id t :
  (exists k r, uuid_key t id = Some k /\ t !! k = Some r
               /\ remove rt id t = remove rt k t)
  \/ (exists err, findOne id t = (Throw err, t)
                  /\ remove rt id t = (Throw err, t)).
Proof.
  destruct (findOne_cases id t) as [(k & r & Hkey & Hk & Heq) | [err Hthrow]].
  - left. exists k, r. split; [exact Hkey|]. split; [exact Hk|].
    unfold remove. apply bind_same, Heq.
  - right. exists err. split; [exact Hthrow|].
    unfold remove. apply bind_throw, Hthrow.
Qed.

Lemma isUserActive_cases id t :
  (exists k r, uuid_key t id = Some k /\ t !! k = Some r
               /\ isUserActive id t = isUserActive k t)
  \/ (exists err, findOne id t = (Throw err, t)
                  /\ isUserActive id t = (Throw err, t)).
Proof.
  destruct (findOne_cases id t) as [(k & r & Hkey & Hk & Heq) | [err Hthrow]].
  - left. exists k, r. split; [exact Hkey|]. split; [exact Hk|].
    unfold isUserActive. apply bind_same, Heq.
  - right. exists err. split; [exact Hthrow|].
    unfold isUserActive. apply bind_throw, Hthrow.
Qed.

Lemma update_named rt id k r (dto : UpdateUserDto.t) t :
  uuid_key t id = Some k -> t !! k = Some r ->
  update rt id dto t = update rt k dto t.
Proof.
  intros Hkey Hk. unfold update. apply bind_same.
  rewrite (findOne_named _ _ _ _ Hkey Hk), (findOne_found _ _ _ Hk). reflexivity.
Qed.

(** What a text names depends on the table through its keys only. *)
Lemma uuid_key_dom t1 t id : dom t1 = dom t -> uuid_key t1 id = uuid_key t id.
Proof.
  intros Hdom. unfold uuid_key.
  destruct (t1 !! id) as [r1|] eqn:H1, (t !! id) as [r|] eqn:H2; try reflexivity.
  - assert (Hin : id ∈ dom t) by (rewrite <- Hdom; apply elem_of_dom; eauto).
    apply elem_of_dom in Hin as [r Hr]. congruence.
  - assert (Hin : id ∈ dom t1) by (rewrite Hdom; apply elem_of_dom; eauto).
    apply elem_of_dom in Hin as [r1 Hr1]. congruence.
Qed.

(** [create] throws and leaves the table, or succeeds and adds a row. *)
Lemma create_effect rt (dto : CreateUserDto.t) t :
  (exists err, create rt dto t = (Throw err, t))
  \/ exists u t', create rt dto t = (Ok u, t') /\ inserted t t'.
Proof.
  unfold create, bind, findOne_where_email.
  destruct (List.find _ _); simpl; [left; eauto|].
  change (save rt (repository_create dto) t)
    with (insert_row rt (uuid_generate t) (repository_create dto) t).
  destruct (insert_row_effect rt (uuid_generate t)
              (repository_create dto) t (uuid_generate_fresh t)) as [-> | Hok].
  - left. eauto.
  - right. exact Hok.
Qed.

(** [update] on a key of the table throws and leaves the table, or
    succeeds and has replaced at most the row under that key. *)
Lemma update_effect_stored rt id r (dto : UpdateUserDto.t) t :
  t !! id = Some r ->
  (exists err, update rt id dto t = (Throw err, t))
  \/ exists u t',
       update rt id dto t = (Ok u, t') /\ (t' = t \/ replaced id t t').
Proof.
  intros Hid. rewrite (update_found _ _ _ _ _ Hid). cbv zeta.
  pose proof (update_row_effect rt id r
                (Object_assign (select_default id r) dto) t Hid) as Hw.
  assert (Hwrite :
    (exists err, update_row rt id r (Object_assign (select_default id r) dto) t
               = (Throw err, t))
    \/ exists u t',
         update_row rt id r (Object_assign (select_default id r) dto) t = (Ok u, t')
         /\ (t' = t \/ replaced id t t')).
  { destruct Hw as [-> | Hok]; [left; eauto | right; exact Hok]. }
  destruct (_ && _); [|exact Hwrite].
  destruct (List.find _ _); [left; eauto | exact Hwrite].
Qed.

(** [update] throws and leaves the table, or succeeds and has replaced
    at most one row, the one its [id] names. *)
Lemma update_effect rt id (dto : UpdateUserDto.t) t :
  (exists err, update rt id dto t = (Throw err, t))
  \/ exists u t',
       update rt id dto t = (Ok u, t')
       /\ (t' = t \/ exists k, uuid_key t id = Some k /\ replaced k t t').
Proof.
  destruct (update_cases rt id dto t) as [(k & r & Hkey & Hk & ->) | (err & _ & ->)];
    [|left; eauto].
  destruct (update_effect_stored rt k r dto t Hk) as [Hthrow | (u & t' & Hrun & Ht')];
    [left; exact Hthrow|].
  right. exists u, t'. split; [exact Hrun|].
  destruct Ht' as [-> | Hrep]; [left; reflexivity | right; eauto].
Qed.

(** [remove] on a stored account, unfolded to the repository call. *)
Lemma remove_run rt id r t :
  t !! id = Some r ->
  remove rt id t
  = match update_row rt id r (set_isActive (select_default id r) false) t with
    | (Ok _, t') =>
        (Ok {| message := "User " +:+ Row.email r +:+ " has been deactivated" |}, t')
    | (Throw err, t') => (Throw err, t')
    end.
Proof.
  intros Hid. unfold remove. unfold bind at 1. rewrite (findOne_found _ _ _ Hid).
  unfold bind. rewrite (save_existing rt id r) by (reflexivity || exact Hid).
  destruct (update_row _ _ _ _ _) as [[u'|err] t']; reflexivity.
Qed.

(** [remove] throws and leaves the table, or succeeds and has replaced
    at most one row, the one its [id] names. *)
Lemma remove_effect rt id t :
  (exists err, remove rt id t = (Throw err, t))
  \/ exists m t',
       remove rt id t = (Ok m, t')
       /\ (t' = t \/ exists k, uuid_key t id = Some k /\ replaced k t t').
Proof.
  destruct (remove_cases rt id t) as [(k & r & Hkey & Hk & ->) | (err & _ & ->)];
    [|left; eauto].
  rewrite (remove_run rt k r t Hk).
  destruct (update_row_effect rt k r (set_isActive (select_default k r) false)
              t Hk) as [-> | (u' & t' & -> & Ht')].
  - left. eauto.
  - right. eexists _, t'. split; [reflexivity|].
    destruct Ht' as [-> | Hrep]; [left; reflexivity | right; eauto].
Qed.

End StoreEffects.

(* ===================================================================== *)
(** ** Steps of the table *)
(* ===================================================================== *)

Section TableSteps.
Implicit Types (t : Table) (id i j : string) (r : Row.t).

Lemma insert_keeps_unique t i r :
  unique_emails t ->
  (forall j r', j <> i -> t !! j = Some r' -> Row.email r' <> Row.email r) ->
  unique_emails (<[i := r]> t).
Proof.
  intros Hu Hfree a b ra rb Ha Hb He.
  apply lookup_insert_Some in Ha as [[<- <-] | [Hai Ha]];
    apply lookup_insert_Some in Hb as [[<- <-] | [Hbi Hb]].
  - reflexivity.
  - destruct (Hfree b rb (not_eq_sym Hbi) Hb). congruence.
  - destruct (Hfree a ra (not_eq_sym Hai) Ha). congruence.
  - exact (Hu a b ra rb Ha Hb He).
Qed.

Lemma inserted_unique t t' :
  unique_emails t -> inserted t t' -> unique_emails t'.
Proof.
  intros Hu (i & r & _ & Hv & ->).
  apply insert_keeps_unique; [exact Hu|].
  apply violates_unique_email_free, Hv.
Qed.

Lemma replaced_unique id t t' :
  unique_emails t -> replaced id t t' -> unique_emails t'.
Proof.
  intros Hu (r0 & r & Hid & _ & Hemail & ->).
  apply insert_keeps_unique; [exact Hu|].
  destruct Hemail as [Hsame | Hv].
  - intros j r' Hne Hj He. apply Hne.
    apply (Hu j id r' r0 Hj Hid). congruence.
  - apply violates_unique_email_free, Hv.
Qed.

Lemma inserted_keeps_rows t t' j r :
  inserted t t' -> t !! j = Some r -> t' !! j = Some r.
Proof.
  intros (i & r' & Hfree & _ & ->) Hj.
  rewrite lookup_insert_ne; [exact Hj | congruence].
Qed.

Lemma replaced_frame id t t' j :
  replaced id t t' -> j <> id -> t' !! j = t !! j.
Proof.
  intros (r0 & r & _ & _ & _ & ->) Hne.
  apply lookup_insert_ne. congruence.
Qed.

Lemma replaced_keeps_rows id t t' j r :
  replaced id t t' -> t !! j = Some r ->
  exists r', t' !! j = Some r' /\ Row.createdAt r' = Row.createdAt r.
Proof.
  intros Hrep Hj. destruct (decide (j = id)) as [-> | Hne].
  - destruct Hrep as (r0 & r' & Hid & Hc & _ & ->).
    exists r'. split; [apply lookup_insert_eq | congruence].
  - exists r. split; [|reflexivity].
    rewrite (replaced_frame _ _ _ _ Hrep Hne). exact Hj.
Qed.

Lemma replaced_dom id t t' : replaced id t t' -> dom t' = dom t.
Proof.
  intros (r0 & r & Hid & _ & _ & ->).
  apply dom_insert_lookup_L. eauto.
Qed.

(** The check that runs decides the property. *)
Lemma unique_emails_check_sound t :
  unique_emails_check t = true -> unique_emails t.
Proof.
  unfold unique_emails_check. rewrite forallb_forall.
  intros Hall i j r r' Hi Hj He.
  destruct (decide (i = j)) as [Heq | Hne]; [exact Heq|].
  assert (Hin : In (i, r) (map_to_list t))
    by (apply list_elem_of_In, elem_of_map_to_list, Hi).
  apply Hall, negb_true_iff in Hin. simpl in Hin.
  destruct (violates_unique_email_free t i (Row.email r) Hin j r'
              (not_eq_sym Hne) Hj).
  congruence.
Qed.

End TableSteps.

(* ===================================================================== *)
(** ** [UsersService]: invariants and frame *)
(* ===================================================================== *)

Section ServiceInvariants.
Context `{Bcrypt}.
Implicit Types (t : Table) (id i j : string) (r : Row.t) (rt : Runtime).

(** A call of [create], [update] or [remove] that throws has written
    nothing: the table is the one the call started from. *)
Theorem failed_call_writes_nothing rt (cdto : CreateUserDto.t) id
        (udto : UpdateUserDto.t) t err :
  (outcome (create rt cdto t) = Throw err -> store_after (create rt cdto t) = t)
  /\ (outcome (update rt id udto t) = Throw err
      -> store_after (update rt id udto t) = t)
  /\ (outcome (remove rt id t) = Throw err -> store_after (remove rt id t) = t).
Proof.
  split; [|split].
  - destruct (create_effect rt cdto t) as [[e' ->] | (u & t' & -> & _)];
      [reflexivity | discriminate].
  - destruct (update_effect rt id udto t) as [[e' ->] | (u & t' & -> & _)];
      [reflexivity | discriminate].
  - destruct (remove_effect rt id t) as [[e' ->] | (m & t' & -> & _)];
      [reflexivity | discriminate].
Qed.

(** [update], [remove] and [isUserActive] on an [id] under which no
    account is stored throw and leave the table as it was: when [id] is
    a uuid, [NotFoundException] with the message naming the [id]; when
    it is not a uuid, the error of the refused query. *)
Theorem unknown_id_not_found rt id (dto : UpdateUserDto.t) t :
  (forall k, uuid_key t id = Some k -> t !! k = None ->
     let err := NotFoundException ("User with ID " +:+ id +:+ " not found") in
     update rt id dto t = (Throw err, t)
     /\ remove rt id t = (Throw err, t)
     /\ isUserActive id t = (Throw err, t))
  /\ (uuid_key t id = None ->
      update rt id dto t = (Throw QueryFailedError, t)
      /\ remove rt id t = (Throw QueryFailedError, t)
      /\ isUserActive id t = (Throw QueryFailedError, t)).
Proof.
  assert (Hthrow : forall err, findOne id t = (Throw err, t) ->
            update rt id dto t = (Throw err, t)
            /\ remove rt id t = (Throw err, t)
            /\ isUserActive id t = (Throw err, t)).
  { intros err Hfind. split; [|split].
    - unfold update. apply bind_throw, Hfind.
    - unfold remove. apply bind_throw, Hfind.
    - unfold isUserActive. apply bind_throw, Hfind. }
  split.
  - intros k Hkey Hk err. subst err. apply Hthrow.
    exact (findOne_absent _ _ _ Hkey Hk).
  - intros Hkey. apply Hthrow. exact (findOne_refused _ _ Hkey).
Qed.

(** If no two accounts share an email, then no two accounts share an
    email after [create], after [update] and after [remove], whatever
    the arguments and whether the call succeeds or throws. *)
Theorem unique_emails_preserved rt (cdto : CreateUserDto.t) id
        (udto : UpdateUserDto.t) t :
  unique_emails t ->
  unique_emails (store_after (create rt cdto t))
  /\ unique_emails (store_after (update rt id udto t))
  /\ unique_emails (store_after (remove rt id t)).
Proof.
  intros Hu. split; [|split].
  - destruct (create_effect rt cdto t) as [[e' ->] | (u & t' & -> & Hins)];
      [exact Hu | exact (inserted_unique _ _ Hu Hins)].
  - destruct (update_effect rt id udto t)
      as [[e' ->] | (u & t' & -> & [-> | (k & Hkey & Hrep)])];
      [exact Hu | exact Hu | exact (replaced_unique _ _ _ Hu Hrep)].
  - destruct (remove_effect rt id t)
      as [[e' ->] | (m & t' & -> & [-> | (k & Hkey & Hrep)])];
      [exact Hu | exact Hu | exact (replaced_unique _ _ _ Hu Hrep)].
Qed.

(** No call deletes an account or changes its [createdAt]: a row that
    is in the table before [create], [update] or [remove] is still there
    afterwards, under the same [id] and with the same [createdAt]. *)
Theorem accounts_are_never_deleted rt (cdto : CreateUserDto.t) id
        (udto : UpdateUserDto.t) t j r :
  t !! j = Some r ->
  (exists r', store_after (create rt cdto t) !! j = Some r'
              /\ Row.createdAt r' = Row.createdAt r)
  /\ (exists r', store_after (update rt id udto t) !! j = Some r'
                 /\ Row.createdAt r' = Row.createdAt r)
  /\ (exists r', store_after (remove rt id t) !! j = Some r'
                 /\ Row.createdAt r' = Row.createdAt r).
Proof.
  intros Hj. split; [|split].
  - destruct (create_effect rt cdto t) as [[e' ->] | (u & t' & -> & Hins)].
    + exists r. auto.
    + exists r. split; [exact (inserted_keeps_rows _ _ _ _ Hins Hj) | reflexivity].
  - destruct (update_effect rt id udto t)
      as [[e' ->] | (u & t' & -> & [-> | (k & Hkey & Hrep)])].
    + exists r. auto.
    + exists r. auto.
    + exact (replaced_keeps_rows _ _ _ _ _ Hrep Hj).
  - destruct (remove_effect rt id t)
      as [[e' ->] | (m & t' & -> & [-> | (k & Hkey & Hrep)])].
    + exists r. auto.
    + exists r. auto.
    + exact (replaced_keeps_rows _ _ _ _ _ Hrep Hj).
Qed.

(** [update] and [remove] touch only the row their [id] names and add
    no account: every row under another key is as before (every row,
    when [id] names none), and the set of ids is the same.  [create]
    leaves every row that was in the table as it was. *)
Theorem calls_touch_only_their_target rt (cdto : CreateUserDto.t) id
        (udto : UpdateUserDto.t) t :
  (forall j, uuid_key t id <> Some j ->
             store_after (update rt id udto t) !! j = t !! j)
  /\ dom (store_after (update rt id udto t)) = dom t
  /\ (forall j, uuid_key t id <> Some j ->
                store_after (remove rt id t) !! j = t !! j)
  /\ dom (store_after (remove rt id t)) = dom t
  /\ (forall j r, t !! j = Some r -> store_after (create rt cdto t) !! j = Some r).
Proof.
  assert (Hupd : store_after (update rt id udto t) = t
                 \/ exists k, uuid_key t id = Some k
                              /\ replaced k t (store_after (update rt id udto t))).
  { destruct (update_effect rt id udto t)
      as [[e' ->] | (u & t' & -> & [-> | Hrep])]; auto. }
  assert (Hrem : store_after (remove rt id t) = t
                 \/ exists k, uuid_key t id = Some k
                              /\ replaced k t (store_after (remove rt id t))).
  { destruct (remove_effect rt id t)
      as [[e' ->] | (m & t' & -> & [-> | Hrep])]; auto. }
  split; [|split; [|split; [|split]]].
  - intros j Hne. destruct Hupd as [-> | (k & Hkey & Hrep)]; [reflexivity|].
    apply (replaced_frame _ _ _ _ Hrep). congruence.
  - destruct Hupd as [-> | (k & _ & Hrep)];
      [reflexivity | exact (replaced_dom _ _ _ Hrep)].
  - intros j Hne. destruct Hrem as [-> | (k & Hkey & Hrep)]; [reflexivity|].
    apply (replaced_frame _ _ _ _ Hrep). congruence.
  - destruct Hrem as [-> | (k & _ & Hrep)];
      [reflexivity | exact (replaced_dom _ _ _ Hrep)].
  - intros j r Hj.
    destruct (create_effect rt cdto t) as [[e' ->] | (u & t' & -> & Hins)];
      [exact Hj | exact (inserted_keeps_rows _ _ _ _ Hins Hj)].
Qed.

End ServiceInvariants.

(* ===================================================================== *)
(** ** [UsersService]: the queries *)
(* ===================================================================== *)

Section Queries.
Context `{BcryptCompare}.
Implicit Types (t : Table) (id i j e : string) (r : Row.t).

(** [findAll] returns one object per account and nothing else, each
    account once, none of the objects with a [password] property; the
    table is left as it was. *)
Theorem findAll_lists_every_account t :
  exists l,
    findAll t = (Ok l, t)
    /\ length l = size t
    /\ NoDup (User.id <$> l)
    /\ (forall u, u ∈ l <-> exists id r, t !! id = Some r /\ u = select_default id r)
    /\ Forall (fun u => User.password u = None) l.
Proof.
  exists ((fun kv => select_default kv.1 kv.2) <$> map_to_list t).
  split; [reflexivity|].
  split; [rewrite length_fmap; apply length_map_to_list|].
  split.
  { rewrite <- list_fmap_compose.
    change (User.id ∘ (fun kv : string * Row.t => select_default kv.1 kv.2))
      with (Some ∘ (fst : string * Row.t -> string)).
    rewrite list_fmap_compose. apply (NoDup_fmap_2 Some), NoDup_fst_map_to_list. }
  split.
  - intros u. rewrite list_elem_of_fmap. split.
    + intros [[id r] [-> Hin]]. apply elem_of_map_to_list in Hin. eauto.
    + intros (id & r & Hid & ->). exists (id, r).
      split; [reflexivity | apply elem_of_map_to_list, Hid].
  - apply Forall_fmap, Forall_forall. intros kv _. reflexivity.
Qed.

(** [findByEmail(email)] returns [null] exactly when no account holds
    the email.  Otherwise it returns an account that holds it, as an
    object with [id], [email], [password] (the stored column), [role],
    [fullName] and [isActive], and without [phoneNumber], [createdAt]
    and [updatedAt]. *)
Theorem findByEmail_selects_password e t :
  (findByEmail e t = (Ok None, t)
   /\ forall id r, t !! id = Some r -> Row.email r <> e)
  \/ exists id r,
       t !! id = Some r
       /\ Row.email r = e
       /\ findByEmail e t
          = (Ok (Some {| User.id := Some id;
                         User.fullName := Some (Row.fullName r);
                         User.email := Some e;
                         User.password := Some (Row.password r);
                         User.phoneNumber := None;
                         User.role := Some (Row.role r);
                         User.isActive := Some (Row.isActive r);
                         User.createdAt := None;
                         User.updatedAt := None |}), t).
Proof.
  unfold findByEmail, findOne_where_email_select.
  destruct (List.find _ _) as [[id r]|] eqn:Hq.
  - right. apply find_email_Some in Hq as [Hid He]. exists id, r.
    split; [exact Hid|]. split; [exact He|]. subst e. reflexivity.
  - left. split; [reflexivity|]. apply find_email_None, Hq.
Qed.

(** [validatePassword] needs the digest on the object: on what
    [findOne] returns it fails for every input, because the query does
    not select [password]; on what [findByEmail] returns it compares the
    input with the stored column of an account holding that email. *)
Theorem validatePassword_needs_findByEmail id e t (u : User.t) plain :
  (findOne id t = (Ok u, t) -> validatePassword u plain = None)
  /\ (findByEmail e t = (Ok (Some u), t) ->
      exists id' r,
        t !! id' = Some r
        /\ Row.email r = e
        /\ validatePassword u plain = Some (bcrypt_compare plain (Row.password r))).
Proof.
  split.
  - intros Hrun.
    destruct (findOne_cases id t) as [(k & r & _ & Hk & Heq) | [err Hthrow]].
    + rewrite Heq, (findOne_found _ _ _ Hk) in Hrun.
      injection Hrun as <-. reflexivity.
    + rewrite Hthrow in Hrun. discriminate.
  - unfold findByEmail, findOne_where_email_select. intros Hrun.
    destruct (List.find _ _) as [[id' r]|] eqn:Hq; [|discriminate].
    apply find_email_Some in Hq as [Hid He].
    injection Hrun as <-. exists id', r. auto.
Qed.

End Queries.

(* ===================================================================== *)
(** ** [UsersService]: calls in sequence *)
(* ===================================================================== *)

Section Sequences.
Context `{Bcrypt} `{BcryptCompare}.
Implicit Types (t : Table) (id i j e : string) (r : Row.t) (rt : Runtime).

(** The email query on a table where exactly the row under [id] holds
    the email. *)
Lemma find_email_only t e id r :
  t !! id = Some r -> Row.email r = e ->
  (forall j r', j <> id -> t !! j = Some r' -> Row.email r' <> e) ->
  List.find (where_email e) (map_to_list t) = Some (id, r).
Proof.
  intros Hid He Hothers.
  destruct (find_email_held t e id r Hid He) as [[j r'] Hq].
  rewrite Hq. apply find_email_Some in Hq as [Hj He'].
  destruct (decide (j = id)) as [-> | Hne]; [congruence|].
  destruct (Hothers j r' Hne Hj He').
Qed.

(** A successful [create] found the email free. *)
Lemma create_ok_free rt (dto : CreateUserDto.t) t (u : User.t) t' :
  create rt dto t = (Ok u, t') ->
  forall i r, t !! i = Some r -> Row.email r <> CreateUserDto.email dto.
Proof.
  intros Hrun. apply find_email_None.
  destruct (List.find _ _) as [kv|] eqn:Hq; [|reflexivity].
  apply find_email_Some' in Hq.
  destruct Hq as (i & r & Hi & He).
  rewrite (create_taken rt dto t i r Hi He) in Hrun. discriminate.
Qed.

(** Two registrations with one email, one after the other: when the
    first [create] succeeds, a [create] with the same email on the
    resulting table throws [ConflictException] and writes nothing. *)
Theorem create_twice_same_email rt1 rt2 (dto dto' : CreateUserDto.t) t
        (u : User.t) t1 :
  create rt1 dto t = (Ok u, t1) ->
  CreateUserDto.email dto' = CreateUserDto.email dto ->
  create rt2 dto' t1 = (Throw (ConflictException "Email already exists"), t1).
Proof.
  intros Hrun Hsame.
  pose proof (create_fresh rt1 dto t (create_ok_free _ _ _ _ _ Hrun)) as Hshape.
  cbv zeta in Hshape. rewrite Hshape in Hrun. injection Hrun as _ <-.
  eapply create_taken; [apply lookup_insert_eq|].
  simpl. congruence.
Qed.

(** Registration and login: after [create] with a free email and a
    non-empty password, [findByEmail] with that email returns the new
    account, and [validatePassword] with the registered password on the
    returned object answers what [bcrypt.compare] answers for the
    password and its digest under the salt drawn. *)
Theorem create_then_validatePassword rt (dto : CreateUserDto.t) t :
  (forall i r, t !! i = Some r -> Row.email r <> CreateUserDto.email dto) ->
  CreateUserDto.password dto <> "" ->
  exists u t1 u',
    create rt dto t = (Ok u, t1)
    /\ findByEmail (CreateUserDto.email dto) t1 = (Ok (Some u'), t1)
    /\ User.id u' = User.id u
    /\ validatePassword u' (CreateUserDto.password dto)
       = Some (bcrypt_compare (CreateUserDto.password dto)
                 (bcrypt_hash (CreateUserDto.password dto) (genSalt rt))).
Proof.
  intros Hfree Hpw.
  pose proof (create_fresh rt dto t Hfree) as Hshape. cbv zeta in Hshape.
  eexists _, _, _. split; [exact Hshape|].
  unfold findByEmail, findOne_where_email_select.
  erewrite find_email_only; [| apply lookup_insert_eq | reflexivity |].
  - split; [reflexivity|]. split; [reflexivity|].
    unfold validatePassword. simpl. unfold truthy.
    apply String.eqb_neq in Hpw. rewrite Hpw. reflexivity.
  - intros j r' Hne Hj. rewrite lookup_insert_ne in Hj by congruence.
    exact (Hfree j r' Hj).
Qed.

(** Soft delete and reactivation: after [remove] the account is still
    found by [findOne] and [isUserActive] answers [false]; an [update]
    with [{ isActive: true }] then succeeds and [isUserActive] answers
    [true] again. *)
Theorem deactivate_then_reactivate rt1 rt2 id r t :
  t !! id = Some r ->
  exists m t1 u1 u2 t2,
    remove rt1 id t = (Ok m, t1)
    /\ findOne id t1 = (Ok u1, t1)
    /\ isUserActive id t1 = (Ok (Some false), t1)
    /\ update rt2 id (only_isActive true) t1 = (Ok u2, t2)
    /\ isUserActive id t2 = (Ok (Some true), t2).
Proof.
  intros Hid.
  destruct (remove_found rt1 id r t Hid) as (t1 & r1 & Hrun1 & Hid1 & Hoff & _).
  destruct (update_row_ok rt2 id r1
              (Object_assign (select_default id r1) (only_isActive true)) t1 Hid1)
    as (u2 & t2 & r2 & Hrun2 & Hid2 & Hr2 & _); [left; reflexivity|].
  eexists _, t1, _, u2, t2.
  split; [exact Hrun1|].
  split; [apply findOne_found, Hid1|].
  split.
  { unfold isUserActive, bind. rewrite (findOne_found _ _ _ Hid1).
    simpl. rewrite Hoff. reflexivity. }
  split.
  { rewrite (update_found _ _ _ _ _ Hid1). exact Hrun2. }
  unfold isUserActive, bind. rewrite (findOne_found _ _ _ Hid2). simpl.
  destruct Hr2 as [-> | ->]; reflexivity.
Qed.

(** Changing the email: on a table without duplicate emails, an
    [update] of a stored account with a non-empty email that differs
    from its own and that no other account holds succeeds; afterwards
    [findByEmail] with the new email returns that account, and no
    account holds the old email any more. *)
Theorem update_email_moves_account rt id e r t :
  unique_emails t ->
  t !! id = Some r ->
  e <> "" ->
  e <> Row.email r ->
  (forall j r', j <> id -> t !! j = Some r' -> Row.email r' <> e) ->
  exists u t' u',
    update rt id (only_email e) t = (Ok u, t')
    /\ findByEmail e t' = (Ok (Some u'), t')
    /\ User.id u' = Some id
    /\ findByEmail (Row.email r) t' = (Ok None, t').
Proof.
  intros Hu Hid Hne Hdiff Hothers.
  assert (Hv : violates_unique_email t id e = false)
    by (apply violates_unique_email_false, Hothers).
  destruct (update_row_ok rt id r
              (Object_assign (select_default id r) (only_email e)) t Hid)
    as (u & t' & r' & Hrun & Hid' & Hr' & Hframe & _); [right; exact Hv|].
  assert (He' : Row.email r' = e) by (destruct Hr' as [-> | ->]; reflexivity).
  assert (Hq : List.find (where_email e) (map_to_list t) = None).
  { apply find_email_None. intros j r'' Hj He''.
    destruct (decide (j = id)) as [-> | Hji]; [congruence|].
    exact (Hothers j r'' Hji Hj He''). }
  exists u, t'. eexists. split.
  { rewrite (update_found _ _ _ _ _ Hid). cbv zeta. simpl UpdateUserDto.email.
    assert (Hguard : truthy_opt (Some e) && strict_neq (Some e) (Some (Row.email r))
                     = true).
    { apply andb_true_iff. split.
      - simpl. unfold truthy. apply negb_true_iff, String.eqb_neq, Hne.
      - unfold strict_neq. apply negb_true_iff, bool_decide_eq_false. congruence. }
    rewrite Hguard. simpl default. rewrite Hq. exact Hrun. }
  unfold findByEmail, findOne_where_email_select.
  rewrite (find_email_only t' e id r' Hid' He').
  2: { intros j r'' Hji Hj. rewrite (Hframe j Hji) in Hj.
       exact (Hothers j r'' Hji Hj). }
  split; [reflexivity|]. split; [reflexivity|].
  replace (List.find (where_email (Row.email r)) (map_to_list t')) with
    (@None (string * Row.t)); [reflexivity|].
  symmetry. apply find_email_None. intros j r'' Hj He''.
  destruct (decide (j = id)) as [-> | Hji].
  - congruence.
  - rewrite (Hframe j Hji) in Hj. apply Hji. exact (Hu j id r'' r Hj Hid He'').
Qed.

Lemma update_without_password_stored rt id r (dto : UpdateUserDto.t) t
      (u : User.t) t' :
  t !! id = Some r ->
  UpdateUserDto.password dto = None ->
  update rt id dto t = (Ok u, t') ->
  User.password u = None.
Proof.
  intros Hid Hpw Hrun.
  rewrite (update_found _ _ _ _ _ Hid) in Hrun. cbv zeta in Hrun.
  assert (Hw : update_row rt id r (Object_assign (select_default id r) dto) t
               = (Ok u, t')).
  { destruct (_ && _); [|exact Hrun].
    destruct (List.find _ _); [discriminate | exact Hrun]. }
  unfold update_row in Hw. cbv zeta in Hw.
  destruct (negb (differs _ r)).
  - injection Hw as <- _. simpl. rewrite Hpw. reflexivity.
  - destruct (negb _ && violates_unique_email _ _ _); [discriminate Hw|].
    injection Hw as <- _. simpl. rewrite Hpw. reflexivity.
Qed.

(** An [update] whose DTO has no [password] returns an object without
    the [password] property. *)
Theorem update_without_password_returns_none rt id (dto : UpdateUserDto.t) t
        (u : User.t) t' :
  UpdateUserDto.password dto = None ->
  update rt id dto t = (Ok u, t') ->
  User.password u = None.
Proof.
  intros Hpw Hrun.
  destruct (update_cases rt id dto t) as [(k & r & _ & Hk & Heq) | (err & _ & Heq)];
    rewrite Heq in Hrun; [|discriminate].
  exact (update_without_password_stored rt k r dto t u t' Hk Hpw Hrun).
Qed.

(** What [update] writes for a DTO without [password] is a fixed point
    of that DTO. *)
Lemma merge_assign_idem rt id id' (dto : UpdateUserDto.t) r :
  UpdateUserDto.password dto = None ->
  let x := merge_columns (Object_assign (select_default id r) dto) r in
  differs (Object_assign (select_default id' x) dto) x = false
  /\ differs (Object_assign (select_default id' (touch rt x)) dto) (touch rt x)
     = false.
Proof.
  destruct dto as [n e p ph ro a]. simpl. intros ->.
  destruct r as [rn re rp rph rro ra rc rm].
  unfold differs.
  split; (apply orb_false_iff; split; [|reflexivity]);
    apply negb_false_iff, bool_decide_eq_true;
    destruct n, e, ph, rph, ro, a; reflexivity.
Qed.

Lemma update_twice_stored rt1 rt2 id r (dto : UpdateUserDto.t) t
      (u1 : User.t) t1 :
  t !! id = Some r ->
  UpdateUserDto.password dto = None ->
  update rt1 id dto t = (Ok u1, t1) ->
  exists u2, update rt2 id dto t1 = (Ok u2, t1).
Proof.
  intros Hid Hpw Hrun.
  pose proof (merge_assign_idem rt1 id id dto r Hpw) as [Hsame Htouched].
  cbv zeta in Hsame, Htouched.
  set (x := merge_columns (Object_assign (select_default id r) dto) r) in *.
  assert (Hx : t1 !! id = Some x \/ t1 !! id = Some (touch rt1 x)).
  { rewrite (update_found _ _ _ _ _ Hid) in Hrun. cbv zeta in Hrun.
    assert (Hw : update_row rt1 id r (Object_assign (select_default id r) dto) t
                 = (Ok u1, t1)).
    { destruct (_ && _); [|exact Hrun].
      destruct (List.find _ _); [discriminate | exact Hrun]. }
    unfold update_row in Hw. cbv zeta in Hw. fold x in Hw.
    destruct (differs _ r) eqn:Hd; cbn [negb] in Hw.
    - destruct (negb _ && violates_unique_email _ _ _); [discriminate Hw|].
      injection Hw as _ <-. right. apply lookup_insert_eq.
    - injection Hw as _ <-. left. rewrite Hid. f_equal.
      unfold differs in Hd. apply orb_false_iff in Hd as [Hd _].
      apply negb_false_iff, bool_decide_eq_true in Hd. symmetry. exact Hd. }
  assert (Hemail : forall e, UpdateUserDto.email dto = Some e -> Row.email x = e).
  { intros e He. subst x. simpl. rewrite He. reflexivity. }
  assert (Hgo : forall r1, t1 !! id = Some r1 -> Row.email r1 = Row.email x ->
                differs (Object_assign (select_default id r1) dto) r1 = false ->
                exists u2, update rt2 id dto t1 = (Ok u2, t1)).
  { intros r1 Hid1 He1 Hd1. rewrite (update_found _ _ _ _ _ Hid1). cbv zeta.
    assert (Hguard : truthy_opt (UpdateUserDto.email dto)
                     && strict_neq (UpdateUserDto.email dto) (Some (Row.email r1))
                     = false).
    { destruct (UpdateUserDto.email dto) as [e|] eqn:He; [|reflexivity].
      apply andb_false_iff. right. unfold strict_neq.
      apply negb_false_iff, bool_decide_eq_true.
      rewrite He1, (Hemail e eq_refl). reflexivity. }
    rewrite Hguard. unfold update_row. cbv zeta. rewrite Hd1. eauto. }
  destruct Hx as [Hx | Hx].
  - exact (Hgo x Hx eq_refl Hsame).
  - exact (Hgo (touch rt1 x) Hx eq_refl Htouched).
Qed.

(** [update] without a password is idempotent: when a call succeeds,
    the same call on the resulting table succeeds and writes nothing. *)
Theorem update_twice rt1 rt2 id (dto : UpdateUserDto.t) t (u1 : User.t) t1 :
  UpdateUserDto.password dto = None ->
  update rt1 id dto t = (Ok u1, t1) ->
  exists u2, update rt2 id dto t1 = (Ok u2, t1).
Proof.
  intros Hpw Hrun.
  destruct (update_cases rt1 id dto t) as [(k & r & Hkey & Hk & Heq) | (err & _ & Heq)];
    rewrite Heq in Hrun; [|discriminate].
  destruct (update_twice_stored rt1 rt2 k r dto t u1 t1 Hk Hpw Hrun) as [u2 Hrun2].
  exists u2. rewrite <- Hrun2.
  assert (Hdom : dom t1 = dom t).
  { destruct (update_effect_stored rt1 k r dto t Hk)
      as [[err Hthrow] | (u & t' & Hok & Ht')]; [congruence|].
    rewrite Hrun in Hok. injection Hok as _ <-.
    destruct Ht' as [-> | Hrep]; [reflexivity | exact (replaced_dom _ _ _ Hrep)]. }
  assert (Hk1 : is_Some (t1 !! k)).
  { apply elem_of_dom. rewrite Hdom. apply elem_of_dom. eauto. }
  destruct Hk1 as [r1 Hk1].
  exact (update_named rt2 id k r1 dto t1
           (eq_trans (uuid_key_dom t1 t id Hdom) Hkey) Hk1).
Qed.

End Sequences.

(* ===================================================================== *)
(** ** The password pattern, character by character *)
(* ===================================================================== *)

Section PasswordPattern.

(** None of the four sets contains a line terminator. *)
Lemma sets_within_dot c :
  (lower c = true -> dot c = true)
  /\ (upper c = true -> dot c = true)
  /\ (digit c = true -> dot c = true)
  /\ (special c = true -> dot c = true).
Proof.
  destruct c as [[] [] [] [] [] [] [] []]; vm_compute; auto.
Qed.

(** A lookahead [(?=.*[set])], for a set without line terminators,
    looks for a character of the set on the first line. *)
Lemma lookahead_first_line set s :
  (forall c, set c = true -> dot c = true) ->
  match_items [Many dot; One set] s = existsb set (first_line s).
Proof.
  intros Hset. induction s as [|c s IH]; [reflexivity|].
  change (match_items [Many dot; One set] (String c s))
    with ((set c && true) || (dot c && match_items [Many dot; One set] s)).
  rewrite IH, andb_true_r. simpl first_line.
  destruct (dot c) eqn:Hdot; simpl.
  - reflexivity.
  - destruct (set c) eqn:Hc; [|reflexivity].
    rewrite (Hset c Hc) in Hdot. discriminate.
Qed.

Lemma password_accepted_unfold password :
  password_accepted password
  = IsNotEmpty password && MinLength 8 password
    && Matches password_pattern password.
Proof.
  unfold password_accepted, validate_password.
  destruct (IsNotEmpty password), (MinLength 8 password),
           (Matches password_pattern password); reflexivity.
Qed.

Lemma password_accepted_shape password :
  password_accepted password
  = (8 <=? String.length password)%nat
    && match password with
       | String c _ => allowed c
       | EmptyString => false
       end
    && existsb lower (first_line password)
    && existsb upper (first_line password)
    && existsb digit (first_line password)
    && existsb special (first_line password).
Proof.
  rewrite password_accepted_unfold.
  unfold Matches, test, password_pattern. cbn [match_nodes].
  rewrite !lookahead_first_line by apply sets_within_dot.
  unfold IsNotEmpty, MinLength.
  destruct password as [|c rest]; [reflexivity|].
  cbn [String.eqb negb andb].
  assert (Hne : (String c rest =? "")%string = false) by reflexivity.
  rewrite ?Hne. cbn [negb andb]. rewrite andb_true_r.
  destruct (8 <=? String.length (String c rest))%nat,
           (existsb lower _), (existsb upper _), (existsb digit _),
           (existsb special _), (allowed c); reflexivity.
Qed.

(** The decorators on [CreateUserDto.password] accept a string exactly
    when it has at least 8 characters, its first character is a letter,
    a digit or one of [@$!%*?&], and a lowercase letter, an uppercase
    letter, a digit and one of those symbols each occur before its first
    line terminator. *)
Theorem password_accepted_characterised password :
  password_accepted password = true
  <-> (8 <= String.length password)%nat
      /\ (exists c rest, password = String c rest /\ allowed c = true)
      /\ (exists c, c ∈ first_line password /\ lower c = true)
      /\ (exists c, c ∈ first_line password /\ upper c = true)
      /\ (exists c, c ∈ first_line password /\ digit c = true)
      /\ (exists c, c ∈ first_line password /\ special c = true).
Proof.
  rewrite password_accepted_shape, !andb_true_iff, !existsb_exists.
  rewrite Nat.leb_le.
  assert (Hfirst : match password with
                   | String c _ => allowed c
                   | EmptyString => false
                   end = true
                   <-> exists c rest, password = String c rest /\ allowed c = true).
  { destruct password as [|c rest].
    - split; [discriminate | intros (c & rest & Heq & _); discriminate].
    - split; [eauto | intros (c' & rest' & [= -> ->] & Hc); exact Hc]. }
  rewrite Hfirst.
  assert (Hin : forall set : ascii -> bool,
            (exists c, In c (first_line password) /\ set c = true)
            <-> (exists c, c ∈ first_line password /\ set c = true)).
  { intros set. split; intros [c [Hc Hs]]; exists c;
      (split; [apply list_elem_of_In, Hc | exact Hs]). }
  rewrite !Hin. tauto.
Qed.

Lemma first_line_all s :
  forallb dot (list_ascii_of_string s) = true ->
  first_line s = list_ascii_of_string s.
Proof.
  induction s as [|c s IH]; [reflexivity|]. simpl.
  intros Hall. apply andb_true_iff in Hall as [-> Hrest].
  rewrite (IH Hrest). reflexivity.
Qed.

(** On a password without line terminators whose first character is a
    letter, a digit or one of [@$!%*?&], the decorators decide exactly
    the documented rule. *)
Theorem password_rule_agrees_on_plain_input password :
  forallb dot (list_ascii_of_string password) = true ->
  (forall c rest, password = String c rest -> allowed c = true) ->
  password_accepted password = documented_password_rule password.
Proof.
  intros Hplain Hfirst. rewrite password_accepted_shape.
  unfold documented_password_rule. cbv zeta.
  rewrite (first_line_all _ Hplain).
  destruct password as [|c rest]; [reflexivity|].
  rewrite (Hfirst c rest eq_refl), andb_true_r. reflexivity.
Qed.

(** Whoever could register can log in as far as validation goes: a
    password the creation decorators accept passes the decorators of
    [LoginDto.password]. *)
Theorem registered_password_passes_login password :
  password_accepted password = true ->
  validate_login_password password = [].
Proof.
  rewrite password_accepted_unfold. intros Hacc.
  apply andb_true_iff in Hacc as [Hacc _].
  apply andb_true_iff in Hacc as [Hne _].
  unfold validate_login_password. rewrite Hne. reflexivity.
Qed.

End PasswordPattern.

(* ===================================================================== *)
(** ** [JwtStrategy] and the clock; [getDatabaseConfig] *)
(* ===================================================================== *)

Section JwtClock.
Context `{JsonWebToken}.


(** A token whose payload carries no [exp] never expires: if it parses
    and its signature is valid under the strategy's secret, the strategy
    accepts it at every time that is not before its [nbf], and so at
    every time when it carries no [nbf] either. *)
Theorem jwt_without_exp_never_expires opts token payload clock :
  jwt_decode token = Some payload ->
  jwt_signature_valid (secretOrKey opts) token = true ->
  JwtPayload.exp payload = None ->
  (forall n, JwtPayload.nbf payload = Some n -> n <= clock) ->
  authenticate opts clock token
  = Some {| ReqUser.id := JwtPayload.sub payload;
            ReqUser.email := JwtPayload.email payload;
            ReqUser.role := JwtPayload.role payload |}.
Proof.
  intros Hdec Hsig Hexp Hnbf. unfold authenticate, jwt_verify.
  rewrite Hdec, Hsig. cbn [negb]. unfold not_yet_active, expired. rewrite Hexp.
  destruct (JwtPayload.nbf payload) as [n|]; [|reflexivity].
  destruct (Z.ltb_spec clock n); [|reflexivity].
  specialize (Hnbf n eq_refl). lia.
Qed.

End JwtClock.

(** [getDatabaseConfig] turns schema synchronisation off exactly when
    [NODE_ENV] is ["production"] (so it is on when the variable is not
    set), turns query logging on exactly when it is ["development"], and
    therefore never logs without synchronising. *)
Theorem database_config_modes (configService : string -> option string) :
  let config := getDatabaseConfig configService in
  (TypeOrmModuleOptions.synchronize config = false
   <-> configService "NODE_ENV" = Some "production")
  /\ (TypeOrmModuleOptions.logging config = true
      <-> configService "NODE_ENV" = Some "development")
  /\ (TypeOrmModuleOptions.logging config = true
      -> TypeOrmModuleOptions.synchronize config = true)
  /\ (configService "NODE_ENV" = None
      -> TypeOrmModuleOptions.synchronize config = true
         /\ TypeOrmModuleOptions.logging config = false).
Proof.
  cbv zeta. unfold getDatabaseConfig, strict_neq. simpl.
  destruct (configService "NODE_ENV") as [mode|].
  - repeat split.
    + intros Hs. apply negb_false_iff, bool_decide_eq_true in Hs. exact Hs.
    + intros Hm. apply negb_false_iff, bool_decide_eq_true. exact Hm.
    + intros Hl. rewrite negb_involutive in Hl.
      apply bool_decide_eq_true in Hl. exact Hl.
    + intros Hm. rewrite negb_involutive. apply bool_decide_eq_true. exact Hm.
    + intros Hl. rewrite negb_involutive in Hl.
      apply bool_decide_eq_true in Hl. injection Hl as ->. reflexivity.
    + discriminate.
    + discriminate.
  - repeat split; try discriminate; intros; reflexivity.
Qed.

(* ===================================================================== *)
(** ** The further properties on concrete data *)
(* ===================================================================== *)

Lemma demo_table_unique : unique_emails demo_table.
Proof. apply unique_emails_check_sound. vm_compute. reflexivity. Qed.

Lemma failed_call_writes_nothing_demo :
  store_after (@create demo_bcrypt demo_rt
                 {| CreateUserDto.fullName := "Alpha Again";
                    CreateUserDto.email := "alpha@code.com";
                    CreateUserDto.password := "MyP@ssw0rd";
                    CreateUserDto.phoneNumber := None;
                    CreateUserDto.role := None |} demo_table)
  = demo_table
  /\ store_after (@update demo_bcrypt demo_rt beta_id (only_email "alpha@code.com")
                    demo_table)
     = demo_table.
Proof.
  split.
  - apply (proj1 (@failed_call_writes_nothing demo_bcrypt demo_rt _ beta_id
                    (only_email "alpha@code.com") demo_table
                    (ConflictException "Email already exists"))).
    vm_compute. reflexivity.
  - apply (proj1 (proj2 (@failed_call_writes_nothing demo_bcrypt demo_rt gamma_dto
                           beta_id (only_email "alpha@code.com") demo_table
                           (ConflictException "Email already exists")))).
    vm_compute. reflexivity.
Defined.

Lemma unknown_id_not_found_demo :
  (@update demo_bcrypt demo_rt gamma_id (only_phoneNumber "+233999999999") demo_table
   = (Throw (NotFoundException
               "User with ID 123e4567-e89b-12d3-a456-426614174003 not found"),
      demo_table)
   /\ @remove demo_bcrypt demo_rt gamma_id demo_table
      = (Throw (NotFoundException
                  "User with ID 123e4567-e89b-12d3-a456-426614174003 not found"),
         demo_table)
   /\ isUserActive gamma_id demo_table
      = (Throw (NotFoundException
                  "User with ID 123e4567-e89b-12d3-a456-426614174003 not found"),
         demo_table))
  /\ (@update demo_bcrypt demo_rt "u9" (only_phoneNumber "+233999999999") demo_table
      = (Throw QueryFailedError, demo_table)
      /\ @remove demo_bcrypt demo_rt "u9" demo_table
         = (Throw QueryFailedError, demo_table)
      /\ isUserActive "u9" demo_table = (Throw QueryFailedError, demo_table)).
Proof.
  split.
  - apply (proj1 (@unknown_id_not_found demo_bcrypt demo_rt gamma_id
                    (only_phoneNumber "+233999999999") demo_table) gamma_id).
    + vm_compute. reflexivity.
    + vm_compute. reflexivity.
  - apply (proj2 (@unknown_id_not_found demo_bcrypt demo_rt "u9"
                    (only_phoneNumber "+233999999999") demo_table)).
    vm_compute. reflexivity.
Defined.

Lemma unique_emails_preserved_demo :
  unique_emails (store_after (@create demo_bcrypt demo_rt gamma_dto demo_table))
  /\ unique_emails (store_after (@update demo_bcrypt demo_rt beta_id
                                   (only_email "beta@shelf.com") demo_table))
  /\ unique_emails (store_after (@remove demo_bcrypt demo_rt beta_id demo_table)).
Proof.
  apply (@unique_emails_preserved demo_bcrypt demo_rt gamma_dto beta_id
           (only_email "beta@shelf.com") demo_table).
  apply unique_emails_check_sound. vm_compute. reflexivity.
Defined.

Lemma accounts_are_never_deleted_demo :
  (exists r', store_after (@create demo_bcrypt demo_rt gamma_dto demo_table) !! alpha_id
              = Some r' /\ Row.createdAt r' = 100)
  /\ (exists r', store_after (@update demo_bcrypt demo_rt alpha_id
                                (only_email "alpha@shelf.com") demo_table) !! alpha_id
                 = Some r' /\ Row.createdAt r' = 100)
  /\ (exists r', store_after (@remove demo_bcrypt demo_rt alpha_id demo_table) !! alpha_id
                 = Some r' /\ Row.createdAt r' = 100).
Proof.
  apply (@accounts_are_never_deleted demo_bcrypt demo_rt gamma_dto alpha_id
           (only_email "alpha@shelf.com") demo_table alpha_id alpha_row).
  vm_compute. reflexivity.
Defined.

Lemma validatePassword_needs_findByEmail_demo :
  @validatePassword demo_compare (select_default alpha_id alpha_row) "MyP@ssw0rd" = None
  /\ exists id' r,
       demo_table !! id' = Some r
       /\ Row.email r = "alpha@code.com"
       /\ @validatePassword demo_compare (select_with_password alpha_id alpha_row)
            "MyP@ssw0rd"
          = Some (@bcrypt_compare demo_compare "MyP@ssw0rd" (Row.password r)).
Proof.
  split.
  - apply (proj1 (@validatePassword_needs_findByEmail demo_compare alpha_id
                    "alpha@code.com" demo_table (select_default alpha_id alpha_row)
                    "MyP@ssw0rd")).
    vm_compute. reflexivity.
  - apply (proj2 (@validatePassword_needs_findByEmail demo_compare alpha_id
                    "alpha@code.com" demo_table
                    (select_with_password alpha_id alpha_row) "MyP@ssw0rd")).
    vm_compute. reflexivity.
Defined.

Lemma create_twice_same_email_demo :
  @create demo_bcrypt {| now := 300; genSalt := "pepper" |} gamma_dto
     (store_after (@create demo_bcrypt demo_rt gamma_dto demo_table))
  = (Throw (ConflictException "Email already exists"),
     store_after (@create demo_bcrypt demo_rt gamma_dto demo_table)).
Proof.
  destruct (@create demo_bcrypt demo_rt gamma_dto demo_table) as [[u|err] t1] eqn:Hrun.
  - exact (@create_twice_same_email demo_bcrypt demo_rt _ gamma_dto gamma_dto
             demo_table u t1 Hrun eq_refl).
  - vm_compute in Hrun. discriminate Hrun.
Defined.

Lemma create_then_validatePassword_demo :
  exists u t1 u',
    @create demo_bcrypt demo_rt gamma_dto demo_table = (Ok u, t1)
    /\ findByEmail "gamma@code.com" t1 = (Ok (Some u'), t1)
    /\ User.id u' = User.id u
    /\ @validatePassword demo_compare u' "MyP@ssw0rd" = Some true.
Proof.
  apply (@create_then_validatePassword demo_bcrypt demo_compare demo_rt gamma_dto
           demo_table).
  - apply find_email_None. vm_compute. reflexivity.
  - discriminate.
Defined.

Lemma deactivate_then_reactivate_demo :
  exists m t1 u1 u2 t2,
    @remove demo_bcrypt demo_rt alpha_id demo_table = (Ok m, t1)
    /\ findOne alpha_id t1 = (Ok u1, t1)
    /\ isUserActive alpha_id t1 = (Ok (Some false), t1)
    /\ @update demo_bcrypt {| now := 300; genSalt := "pepper" |} alpha_id
         (only_isActive true) t1 = (Ok u2, t2)
    /\ isUserActive alpha_id t2 = (Ok (Some true), t2).
Proof.
  apply (@deactivate_then_reactivate demo_bcrypt demo_rt
           {| now := 300; genSalt := "pepper" |} alpha_id alpha_row demo_table).
  vm_compute. reflexivity.
Defined.

Lemma update_email_moves_account_demo :
  exists u t' u',
    @update demo_bcrypt demo_rt alpha_id (only_email "alpha@shelf.com") demo_table
    = (Ok u, t')
    /\ findByEmail "alpha@shelf.com" t' = (Ok (Some u'), t')
    /\ User.id u' = Some alpha_id
    /\ findByEmail "alpha@code.com" t' = (Ok None, t').
Proof.
  apply (@update_email_moves_account demo_bcrypt demo_rt alpha_id "alpha@shelf.com"
           alpha_row demo_table).
  - apply unique_emails_check_sound. vm_compute. reflexivity.
  - vm_compute. reflexivity.
  - discriminate.
  - discriminate.
  - apply violates_unique_email_free. vm_compute. reflexivity.
Defined.

Lemma update_twice_demo :
  exists u2,
    @update demo_bcrypt {| now := 300; genSalt := "pepper" |} alpha_id
      (only_phoneNumber "+233999999999")
      (store_after (@update demo_bcrypt demo_rt alpha_id
                      (only_phoneNumber "+233999999999") demo_table))
    = (Ok u2, store_after (@update demo_bcrypt demo_rt alpha_id
                             (only_phoneNumber "+233999999999") demo_table)).
Proof.
  destruct (@update demo_bcrypt demo_rt alpha_id (only_phoneNumber "+233999999999")
              demo_table) as [[u|err] t1] eqn:Hrun.
  - exact (@update_twice demo_bcrypt demo_rt _ alpha_id
             (only_phoneNumber "+233999999999") demo_table u t1 eq_refl Hrun).
  - vm_compute in Hrun. discriminate Hrun.
Defined.

Lemma password_rule_agrees_on_plain_input_demo :
  password_accepted "MyP@ssw0rd" = documented_password_rule "MyP@ssw0rd".
Proof.
  apply (password_rule_agrees_on_plain_input "MyP@ssw0rd").
  - vm_compute. reflexivity.
  - intros c rest [= <- _]. vm_compute. reflexivity.
Defined.

Lemma registered_password_passes_login_demo :
  validate_login_password "MyP@ssw0rd" = [].
Proof.
  apply (registered_password_passes_login "MyP@ssw0rd").
  vm_compute. reflexivity.
Defined.


Lemma jwt_without_exp_never_expires_demo :
  @authenticate demo_jwt_no_exp demo_opts 999999999 "eternal.token"
  = Some {| ReqUser.id := beta_id; ReqUser.email := "beta@code.com";
            ReqUser.role := "admin" |}.
Proof.
  apply (@jwt_without_exp_never_expires demo_jwt_no_exp demo_opts "eternal.token"
           {| JwtPayload.sub := beta_id;
              JwtPayload.email := "beta@code.com";
              JwtPayload.role := "admin";
              JwtPayload.iat := Some 1000;
              JwtPayload.exp := None;
              JwtPayload.nbf := None;
              JwtPayload.others := [] |}
           999999999).
  - reflexivity.
  - reflexivity.
  - reflexivity.
  - discriminate.
Defined.

Lemma update_without_password_returns_none_demo :
  exists u t',
    @update demo_bcrypt demo_rt alpha_id (only_phoneNumber "+233999999999") demo_table
    = (Ok u, t')
    /\ User.password u = None.
Proof.
  destruct (@update demo_bcrypt demo_rt alpha_id (only_phoneNumber "+233999999999")
              demo_table) as [[u|err] t1] eqn:Hrun.
  - exists u, t1. split; [reflexivity|].
    exact (@update_without_password_returns_none demo_bcrypt demo_rt alpha_id
             (only_phoneNumber "+233999999999") demo_table u t1 eq_refl Hrun).
  - vm_compute in Hrun. discriminate Hrun.
Defined.

(** The keys of [demo_table] are uuids in the database's spelling. *)
Lemma demo_table_canonical : canonical_keys demo_table.
Proof.
  intros i [r Hi]. unfold demo_table in Hi.
  apply lookup_insert_Some in Hi as [[<- _] | [_ Hi]]; [reflexivity|].
  apply lookup_insert_Some in Hi as [[<- _] | [_ Hi]]; [reflexivity|].
  rewrite lookup_empty in Hi. discriminate.
Qed.

(** A call on another spelling of a stored uuid is the call on that
    uuid: here [update] through the braced, upper-case spelling of
    [alpha_id] changes the row under [alpha_id], a key that differs from
    the text the call was given. *)
Example update_by_another_spelling :
  alpha_id_braced <> alpha_id
  /\ uuid_key demo_table alpha_id_braced = Some alpha_id
  /\ @update demo_bcrypt demo_rt alpha_id_braced (only_phoneNumber "+233999999999")
       demo_table
     = @update demo_bcrypt demo_rt alpha_id (only_phoneNumber "+233999999999")
         demo_table
  /\ Row.phoneNumber
       <$> store_after (@update demo_bcrypt demo_rt alpha_id_braced
                          (only_phoneNumber "+233999999999") demo_table) !! alpha_id
     = Some (Some "+233999999999").
Proof.
  split; [discriminate|]. repeat split; vm_compute; reflexivity.
Qed.
